(** * llm-bench: a shallow embedding of [main.py]

    The script locates the [localscore] executable, optionally downloads the
    executable and a model, resolves the model path against [MODEL_DIR] and
    runs the executable through [/bin/sh -c], relaying its output.

    Everything the script obtains from the operating system, the network or
    a library (the environment, [pathlib]'s file-system probes, [httpx],
    [huggingface_hub], [sh]) is an operation of an abstract world [W],
    collected in the record [OS].  The lexical part of [pathlib] (parsing a
    string into a path, [/], [.parent], [str], [is_absolute]) is written
    out.  Statements are proved for every world; a small concrete world at
    the end of the definitions is used to run the model. *)

From Stdlib Require Import String Ascii List ZArith Bool Lia.
Import ListNotations.
Open Scope string_scope.
Open Scope Z_scope.

(** ** Python strings *)

Module Py.

Definition nl : string := String (ascii_of_nat 10) EmptyString.

(** [s.split(sep)] for a one-character separator: never the empty list. *)
Fixpoint split (sep : ascii) (s : string) : list string :=
  match s with
  | EmptyString => [EmptyString]
  | String c rest =>
      if Ascii.eqb c sep then EmptyString :: split sep rest
      else match split sep rest with
           | [] => [String c EmptyString]
           | h :: t => String c h :: t
           end
  end.

Fixpoint startswith (pre s : string) : bool :=
  match pre, s with
  | EmptyString, _ => true
  | String a pre', String b s' => Ascii.eqb a b && startswith pre' s'
  | String _ _, EmptyString => false
  end.

(** [sub in s] *)
Fixpoint contains (sub s : string) : bool :=
  startswith sub s ||
  match s with
  | EmptyString => false
  | String _ s' => contains sub s'
  end.

(** [s.endswith(suf)] *)
Fixpoint endswith (suf s : string) : bool :=
  String.eqb suf s ||
  match s with
  | EmptyString => false
  | String _ s' => endswith suf s'
  end.

Definition lower_ascii (c : ascii) : ascii :=
  let n := nat_of_ascii c in
  if (Nat.leb 65 n && Nat.leb n 90)%bool then ascii_of_nat (n + 32) else c.

(** [s.lower()] on ASCII text. *)
Fixpoint lower (s : string) : string :=
  match s with
  | EmptyString => EmptyString
  | String c s' => String (lower_ascii c) (lower s')
  end.

(** [x in xs] for a list of strings. *)
Definition mem (x : string) (xs : list string) : bool :=
  existsb (String.eqb x) xs.

End Py.

(** ** The lexical part of [pathlib] (POSIX flavour) *)

Record Path : Type := mkPath {
  root  : string;        (* "", "/" or "//" *)
  parts : list string    (* the components after the root *)
}.

Module PurePath.

Fixpoint leading_slashes (s : string) : nat :=
  match s with
  | String "/"%char s' => S (leading_slashes s')
  | _ => O
  end.

Definition parse_root (s : string) : string :=
  match leading_slashes s with
  | O => ""
  | 2%nat => "//"
  | _ => "/"
  end.

Definition is_component (x : string) : bool :=
  negb (String.eqb x "") && negb (String.eqb x ".").

(** [Path(s)]: empty and "." components are dropped. *)
Definition of_str (s : string) : Path :=
  mkPath (parse_root s) (filter is_component (Py.split "/"%char s)).

(** [str(p)] *)
Definition str (p : Path) : string :=
  match parts p with
  | [] => if String.eqb (root p) "" then "." else root p
  | _ => root p ++ String.concat "/" (parts p)
  end.

Definition is_absolute (p : Path) : bool := negb (String.eqb (root p) "").

(** [a / b] *)
Definition joinpath (a b : Path) : Path :=
  if is_absolute b then b else mkPath (root a) (parts a ++ parts b).

(** [p.parent] *)
Definition parent (p : Path) : Path := mkPath (root p) (removelast (parts p)).

End PurePath.

Notation "a // b" := (PurePath.joinpath a (PurePath.of_str b))
  (at level 40, left associativity).
Notation "a /// b" := (PurePath.joinpath a b)
  (at level 40, left associativity).

(** ** Exceptions, outcomes and observable events *)

Inductive exn : Type :=
| Exception (msg : string)
| ErrorReturnCode (exit_code : Z) (msg : string)   (* sh.ErrorReturnCode *)
| KeyboardInterrupt.

(** [isinstance(e, Exception)] *)
Definition is_Exception (e : exn) : bool :=
  match e with
  | KeyboardInterrupt => false
  | _ => true
  end.

(** [str(e)] *)
Definition exn_str (e : exn) : string :=
  match e with
  | Exception m => m
  | ErrorReturnCode _ m => m
  | KeyboardInterrupt => ""
  end.

Inductive outcome (A : Type) : Type :=
| Ret (a : A)
| Raise (e : exn).
Arguments Ret {A} a.
Arguments Raise {A} e.

Inductive event : Type :=
| Stdout (text : string)                 (* text written to standard output *)
| PrintHelp                              (* parser.print_help() *)
| HttpGet (url : string)                 (* httpx.get *)
| FileWrite (name : string)              (* open(name, "wb") and write *)
| Chmod (name : string) (mode : Z)
| Remove (name : string)
| Rename (src dst : string)
| Mkdir (dir : Path)
| HubListFiles (repo_id : string)
| HubDownload (repo_id filename : string) (local_dir : Path)
| Spawn (cmd : string).                  (* sh.sh("-c", cmd) *)

Definition is_network (ev : event) : bool :=
  match ev with
  | HttpGet _ | HubListFiles _ | HubDownload _ _ _ => true
  | _ => false
  end.

Definition is_fs_write (ev : event) : bool :=
  match ev with
  | FileWrite _ | Chmod _ _ | Remove _ | Rename _ _ | Mkdir _
  | HubDownload _ _ _ => true
  | _ => false
  end.

Definition is_spawn (ev : event) : bool :=
  match ev with
  | Spawn _ => true
  | _ => false
  end.

(** The text printed, in order. *)
Fixpoint stdout_of (t : list event) : list string :=
  match t with
  | [] => []
  | Stdout s :: t' => s :: stdout_of t'
  | _ :: t' => stdout_of t'
  end.

(** ** The outside world *)

(** [httpx.Response], as far as the script looks at it. *)
Record Response : Type := mkResponse {
  is_success : bool;          (* raise_for_status() passes *)
  status_error : string;      (* the message of HTTPStatusError otherwise *)
  content : string
}.

(** How a [sh] command ended: the exit status of the child, or a fault of the
    execution layer itself. *)
Inductive sh_status : Type :=
| Exited (code : Z) (detail : string)
| Faulted (e : exn).

Record OS (W : Type) : Type := mkOS {
  (* read-only probes *)
  environ_get : W -> string -> option string;
  getcwd : W -> Path;
  expanduser : W -> Path -> Path;
  resolve : W -> Path -> Path;
  exists_ : W -> Path -> bool;
  is_dir : W -> Path -> bool;
  is_file : W -> Path -> bool;
  access_X_OK : W -> Path -> bool;
  (* effects *)
  httpx_get : string -> W -> outcome Response * W;
  open_write : string -> string -> W -> outcome unit * W;
  os_stat_mode : string -> W -> outcome Z * W;
  os_chmod : string -> Z -> W -> outcome unit * W;
  os_remove : string -> W -> outcome unit * W;
  os_rename : string -> string -> W -> outcome unit * W;
  mkdir_parents : Path -> W -> outcome unit * W;
  list_repo_files : string -> W -> outcome (list string) * W;
  hf_hub_url : string -> string -> outcome string;
  hf_hub_download : string -> string -> Path -> W -> outcome string * W;
  sh_c : string -> W -> (list string * sh_status) * W
}.
Arguments environ_get {W} _ _ _.
Arguments getcwd {W} _ _.
Arguments expanduser {W} _ _ _.
Arguments resolve {W} _ _ _.
Arguments exists_ {W} _ _ _.
Arguments is_dir {W} _ _ _.
Arguments is_file {W} _ _ _.
Arguments access_X_OK {W} _ _ _.
Arguments httpx_get {W} _ _ _.
Arguments open_write {W} _ _ _ _.
Arguments os_stat_mode {W} _ _ _.
Arguments os_chmod {W} _ _ _ _.
Arguments os_remove {W} _ _ _.
Arguments os_rename {W} _ _ _ _.
Arguments mkdir_parents {W} _ _ _.
Arguments list_repo_files {W} _ _ _.
Arguments hf_hub_url {W} _ _ _.
Arguments hf_hub_download {W} _ _ _ _ _.
Arguments sh_c {W} _ _ _.

(** Module-level configuration, read once when the script is loaded. *)
Record Config : Type := mkConfig {
  LOCALSCORE_VERSION : string;
  HF_REPO_ID : string;
  MODEL_DIR : Path
}.

Definition LOCALSCORE_URL (cfg : Config) : string :=
  "https://blob.localscore.ai/localscore-" ++ LOCALSCORE_VERSION cfg.

Definition LOCALSCORE_BIN : string := "localscore".

(** [stat.S_IEXEC] *)
Definition S_IEXEC : Z := 64.

(** ** A monad for the script: world state, exceptions, event trace *)

Section Monad.

Context {W : Type}.

Definition M (A : Type) : Type := W -> outcome A * W * list event.

Definition ret {A} (a : A) : M A := fun w => (Ret a, w, []).

Definition raise {A} (e : exn) : M A := fun w => (Raise e, w, []).

Definition bind {A B} (m : M A) (f : A -> M B) : M B :=
  fun w =>
    match m w with
    | (Ret a, w1, t1) =>
        match f a w1 with
        | (r, w2, t2) => (r, w2, (t1 ++ t2)%list)
        end
    | (Raise e, w1, t1) => (Raise e, w1, t1)
    end.

(** [try: m  except <handles> as e: h e] *)
Definition try_except {A} (m : M A) (handles : exn -> bool) (h : exn -> M A)
  : M A :=
  fun w =>
    match m w with
    | (Ret a, w1, t1) => (Ret a, w1, t1)
    | (Raise e, w1, t1) =>
        if handles e then
          match h e w1 with
          | (r, w2, t2) => (r, w2, (t1 ++ t2)%list)
          end
        else (Raise e, w1, t1)
    end.

Definition emit (ev : event) : M unit := fun w => (Ret tt, w, [ev]).

(** A read-only probe of the world. *)
Definition ask {A} (f : W -> A) : M A := fun w => (Ret (f w), w, []).

(** An effect [f], recorded in the trace as [ev]. *)
Definition perform {A} (ev : event) (f : W -> outcome A * W) : M A :=
  fun w => match f w with (r, w') => (r, w', [ev]) end.

(** [print(s)] and [print(s, end='')] *)
Definition print (s : string) : M unit := emit (Stdout (s ++ Py.nl)).
Definition print_end_empty (s : string) : M unit := emit (Stdout s).

(** [t] happened before the computation whose result is [x]. *)
Definition prepend {A} (t : list event) (x : outcome A * W * list event)
  : outcome A * W * list event :=
  match x with (r, w, t') => (r, w, (t ++ t')%list) end.

(** [for x in xs: body x] *)
Fixpoint for_each {A} (xs : list A) (body : A -> M unit) : M unit :=
  match xs with
  | [] => ret tt
  | x :: xs' => bind (body x) (fun _ => for_each xs' body)
  end.

End Monad.
Arguments M : clear implicits.

Notation "x <- m ;; k" := (bind m (fun x => k))
  (at level 61, m at next level, right associativity).
Notation "m ;;; k" := (bind m (fun _ => k))
  (at level 61, right associativity).

(** ** The script

    This section gives the script for runs in which every [pathlib] call
    answers; the exceptions such calls can raise are added to the locator
    and the runner in module [Raising] below, and the two are related by the
    [raising_*_quiet] lemmas. *)

(** The module docstring after [.strip()]. *)
Definition doc_stripped : string :=
"Usage:
    llm-bench [--download-localscore] [--download-model] <model-path>

Args:
    model-path:             Path to the GGUF model file to benchmark

Options:
    --download-localscore:  Download the localscore binary
    --download-model:       Download a model from HuggingFace

Note:
    After downloading, copy or symlink this script to a location in your PATH
    (e.g., ~/.local/bin/llm-bench) for easier access.".

(** The namespace returned by [parser.parse_args()]. *)
Record Args : Type := mkArgs {
  args_help : bool;
  args_model_path : option string;
  args_download_localscore : bool;
  args_download_model : bool;
  args_force : bool
}.

(** Truth value of an optional string: [None] and [""] are false. *)
Definition truthy (s : option string) : bool :=
  match s with
  | None => false
  | Some s => negb (String.eqb s "")
  end.

Definition is_some {A} (o : option A) : bool :=
  match o with
  | Some _ => true
  | None => false
  end.

Section Program.

Context {W : Type} (os : OS W) (cfg : Config).

(** [os.environ.get('PATH', '').split(os.pathsep)] *)
Definition path_entries (w : W) : list string :=
  Py.split ":"%char
    (match environ_get os w "PATH" with Some s => s | None => "" end).

(** [p.exists() and p.is_file() and os.access(p, os.X_OK)] *)
Definition is_executable_file (w : W) (p : Path) : bool :=
  exists_ os w p && is_file os w p && access_X_OK os w p.

(** The loop over [path_dirs] of [find_localscore]. *)
Fixpoint scan_path_dirs (w : W) (path_dirs : list string) : option Path :=
  match path_dirs with
  | [] => None
  | path_dir :: rest =>
      let path_dir := resolve os w (expanduser os w (PurePath.of_str path_dir)) in
      if exists_ os w path_dir && is_dir os w path_dir then
        let localscore_path := path_dir // LOCALSCORE_BIN in
        if is_executable_file w localscore_path then Some localscore_path
        else scan_path_dirs w rest
      else scan_path_dirs w rest
  end.

Definition find_localscore (w : W) : option Path :=
  match scan_path_dirs w (path_entries w) with
  | Some localscore_path => Some localscore_path
  | None =>
      let local_path := getcwd os w // LOCALSCORE_BIN in
      if is_executable_file w local_path then Some (resolve os w local_path)
      else None
  end.

(** A call that may raise and leaves no event of its own. *)
Definition call {A} (f : W -> outcome A * W) : M W A :=
  fun w => match f w with (r, w') => (r, w', []) end.

Definition download_localscore (force : bool) : M W unit :=
  found <- ask find_localscore ;;
  if negb force && is_some found then
    print "localscore is already available. Use --force to download anyway."
  else
    print ("Downloading localscore " ++ LOCALSCORE_VERSION cfg ++ "...") ;;;
    response <- perform (HttpGet (LOCALSCORE_URL cfg))
                        (httpx_get os (LOCALSCORE_URL cfg)) ;;
    (if is_success response then ret tt
     else raise (Exception (status_error response))) ;;;
    let temp_filename := "localscore-" ++ LOCALSCORE_VERSION cfg in
    perform (FileWrite temp_filename)
            (open_write os temp_filename (content response)) ;;;
    st_mode <- call (os_stat_mode os temp_filename) ;;
    perform (Chmod temp_filename (Z.lor st_mode S_IEXEC))
            (os_chmod os temp_filename (Z.lor st_mode S_IEXEC)) ;;;
    bin_exists <- ask (fun w => exists_ os w (PurePath.of_str LOCALSCORE_BIN)) ;;
    (if bin_exists then perform (Remove LOCALSCORE_BIN) (os_remove os LOCALSCORE_BIN)
     else ret tt) ;;;
    perform (Rename temp_filename LOCALSCORE_BIN)
            (os_rename os temp_filename LOCALSCORE_BIN) ;;;
    print ("Downloaded and made executable: " ++ LOCALSCORE_BIN).

(** The [if filename is None] block: [None] stands for the early
    [return None]. *)
Definition choose_gguf (repo_id : string) (filename : option string)
  : M W (option string) :=
  match filename with
  | Some f => ret (Some f)
  | None =>
      files <- perform (HubListFiles repo_id) (list_repo_files os repo_id) ;;
      let gguf_files := filter (Py.endswith ".gguf") files in
      match gguf_files with
      | [] =>
          print ("Error: No GGUF files found in repository " ++ repo_id) ;;;
          ret None
      | first :: _ =>
          let filename :=
            match find (fun f => Py.contains "q4" (Py.lower f)) gguf_files with
            | Some f => f
            | None => first
            end in
          print ("Found GGUF file: " ++ filename) ;;;
          ret (Some filename)
      end
  end.

Definition download_model_from_hf (repo_id filename : option string)
  : M W (option Path) :=
  let repo_id := match repo_id with Some r => r | None => HF_REPO_ID cfg end in
  perform (Mkdir (MODEL_DIR cfg)) (mkdir_parents os (MODEL_DIR cfg)) ;;;
  print ("Downloading model from " ++ repo_id ++ "...") ;;;
  try_except
    (chosen <- choose_gguf repo_id filename ;;
     match chosen with
     | None => ret None
     | Some filename =>
         url <- call (fun w => (hf_hub_url os repo_id filename, w)) ;;
         print ("Downloading from: " ++ url) ;;;
         model_path <- perform (HubDownload repo_id filename (MODEL_DIR cfg))
                               (hf_hub_download os repo_id filename (MODEL_DIR cfg)) ;;
         print ("Model downloaded to: " ++ model_path) ;;;
         ret (Some (PurePath.of_str model_path))
     end)
    is_Exception
    (fun e => print ("Error downloading model: " ++ exn_str e) ;;; ret None).

(** Lines 155-159: bare name or absolute path. *)
Definition cmd_name_of (w : W) (localscore_path : Path) : string :=
  if Py.mem (PurePath.str (PurePath.parent localscore_path)) (path_entries w)
  then "localscore"
  else PurePath.str localscore_path.

(** Lines 164-176: the path finally used and [tried_paths]. *)
Definition resolve_model_path (w : W) (model_path : Path) : Path * list Path :=
  if negb (PurePath.is_absolute model_path) && negb (exists_ os w model_path) then
    let tried_paths := [resolve os w model_path] in
    let model_path_with_base := MODEL_DIR cfg /// model_path in
    let tried_paths := (tried_paths ++ [resolve os w model_path_with_base])%list in
    let model_path :=
      if exists_ os w model_path_with_base then model_path_with_base
      else model_path in
    (resolve os w model_path, tried_paths)
  else (resolve os w model_path, []).

(** What iterating over [sh.sh(..., _iter=True)] does once the output is
    exhausted: a non-zero exit status raises [ErrorReturnCode]. *)
Definition sh_finish (st : sh_status) : M W unit :=
  match st with
  | Exited 0 _ => ret tt
  | Exited code detail => raise (ErrorReturnCode code detail)
  | Faulted e => raise e
  end.

Definition run_localscore (model_path : string) : M W Z :=
  localscore_path <- ask find_localscore ;;
  match localscore_path with
  | None =>
      print "Error: localscore not found in PATH or current directory. Run with --download-localscore first." ;;;
      ret 1
  | Some localscore_path =>
      cmd_name <- ask (fun w => cmd_name_of w localscore_path) ;;
      let model_path := PurePath.of_str model_path in
      resolved <- ask (fun w => resolve_model_path w model_path) ;;
      let model_path := fst resolved in
      let tried_paths := snd resolved in
      model_exists <- ask (fun w => exists_ os w model_path) ;;
      if negb model_exists then
        print ("Error: Model file not found." ++ Py.nl ++ "Looked for:") ;;;
        for_each (match tried_paths with [] => [model_path] | _ => tried_paths end)
                 (fun p => print ("  - " ++ PurePath.str p)) ;;;
        print (Py.nl ++ "MODEL_DIR is set to: " ++ PurePath.str (MODEL_DIR cfg)) ;;;
        ret 1
      else
        print ("Running: " ++ cmd_name ++ " -m " ++ PurePath.str model_path) ;;;
        try_except
          (let cmd_str := cmd_name ++ " -m " ++ PurePath.str model_path in
           run <- perform (Spawn cmd_str)
                          (fun w => match sh_c os cmd_str w with
                                    | (r, w') => (Ret r, w')
                                    end) ;;
           for_each (fst run) print_end_empty ;;;
           sh_finish (snd run) ;;;
           ret 0)
          is_Exception
          (fun e =>
             match e with
             | ErrorReturnCode exit_code _ =>
                 print ("Error running localscore: " ++ exn_str e) ;;;
                 ret exit_code
             | _ =>
                 print ("Error: " ++ exn_str e) ;;;
                 ret 1
             end)
  end.

Definition main (args : Args) : M W Z :=
  if args_help args then
    print doc_stripped ;;;
    ret 0
  else
    (if args_download_localscore args then download_localscore (args_force args)
     else ret tt) ;;;
    fetched <-
      (if args_download_model args then
         model_path <- download_model_from_hf None None ;;
         match model_path with
         | None =>
             print "Failed to download model." ;;;
             ret (inl 1)
         | Some model_path =>
             if negb (truthy (args_model_path args))
             then ret (inr (Some (PurePath.str model_path)))
             else ret (inr (args_model_path args))
         end
       else ret (inr (args_model_path args))) ;;
    match fetched with
    | inl code => ret code
    | inr None => emit PrintHelp ;;; ret 0
    | inr (Some model_path) =>
        if String.eqb model_path "" then emit PrintHelp ;;; ret 0
        else run_localscore model_path
    end.

(** The [if __name__ == "__main__"] block: the exit status of the process,
    the final world and everything that happened. *)
Definition script (args : Args) (w : W) : Z * W * list event :=
  match main args w with
  | (Ret _, w', t) => (0, w', t)
  | (Raise KeyboardInterrupt, w', t) =>
      (0, w', (t ++ [Stdout (Py.nl ++ "Bye!" ++ Py.nl)])%list)
  | (Raise e, w', t) =>
      (1, w', (t ++ [Stdout ("Error: " ++ exn_str e ++ Py.nl)])%list)
  end.

End Program.

(** ** A concrete world, to run the model

    A file system without symbolic links: a table from canonical absolute
    paths (lists of components) to nodes.  Probes walk the path component by
    component as the kernel does; [resolve] is lexical, as [os.path.realpath]
    is once no component is a link. *)

Module Demo.

Inductive node : Type :=
| Dir
| File (executable : bool).

Record world : Type := mkWorld {
  env_PATH : option string;
  cwd : list string;
  fs : list (list string * node);
  http : outcome Response;
  hub_files : outcome (list string);
  hub_reachable : bool;
  child : list string * sh_status
}.

Definition same (a b : list string) : bool :=
  if list_eq_dec string_dec a b then true else false.

Definition lookup (w : world) (p : list string) : option node :=
  match p with
  | [] => Some Dir
  | _ => option_map snd (find (fun e => same (fst e) p) (fs w))
  end.

(** Follow [ps] from directory [cur]. *)
Fixpoint walk (w : world) (cur ps : list string) : option node :=
  match ps with
  | [] => lookup w cur
  | x :: ps' =>
      match lookup w cur with
      | Some Dir =>
          if String.eqb x ".." then walk w (removelast cur) ps'
          else walk w (cur ++ [x])%list ps'
      | _ => None
      end
  end.

Definition stat (w : world) (p : Path) : option node :=
  if PurePath.is_absolute p then walk w [] (parts p)
  else walk w (cwd w) (parts p).

Definition normalise (ps : list string) : list string :=
  fold_left (fun acc x => if String.eqb x ".." then removelast acc
                          else (acc ++ [x])%list) ps [].

Definition realpath (w : world) (p : Path) : Path :=
  if PurePath.is_absolute p then mkPath (root p) (normalise (parts p))
  else mkPath "/" (normalise (cwd w ++ parts p)%list).

Definition abs_parts (w : world) (name : string) : list string :=
  parts (realpath w (PurePath.of_str name)).

Definition delete (p : list string) (t : list (list string * node)) :=
  filter (fun e => negb (same (fst e) p)) t.

Definition set_fs (w : world) (t : list (list string * node)) : world :=
  mkWorld (env_PATH w) (cwd w) t (http w) (hub_files w) (hub_reachable w)
          (child w).

Definition put (w : world) (p : list string) (n : node) : world :=
  set_fs w ((p, n) :: delete p (fs w)).

Definition ENOENT {A} : outcome A := Raise (Exception "No such file or directory").

Definition os : OS world := {|
  environ_get := fun w k => if String.eqb k "PATH" then env_PATH w else None;
  getcwd := fun w => mkPath "/" (cwd w);
  expanduser := fun _ p => p;
  resolve := realpath;
  exists_ := fun w p => is_some (stat w p);
  is_dir := fun w p => match stat w p with Some Dir => true | _ => false end;
  is_file := fun w p => match stat w p with Some (File _) => true | _ => false end;
  access_X_OK := fun w p =>
    match stat w p with Some (File x) => x | Some Dir => true | None => false end;
  httpx_get := fun _ w => (http w, w);
  open_write := fun name _ w => (Ret tt, put w (abs_parts w name) (File false));
  os_stat_mode := fun name w =>
    match lookup w (abs_parts w name) with
    | Some (File true) => (Ret 493, w)
    | Some _ => (Ret 420, w)
    | None => (ENOENT, w)
    end;
  os_chmod := fun name mode w =>
    match lookup w (abs_parts w name) with
    | Some (File _) => (Ret tt, put w (abs_parts w name) (File (Z.testbit mode 6)))
    | Some Dir => (Ret tt, w)
    | None => (ENOENT, w)
    end;
  os_remove := fun name w =>
    match lookup w (abs_parts w name) with
    | Some _ => (Ret tt, set_fs w (delete (abs_parts w name) (fs w)))
    | None => (ENOENT, w)
    end;
  os_rename := fun src dst w =>
    match lookup w (abs_parts w src) with
    | Some n =>
        (Ret tt, put (set_fs w (delete (abs_parts w src) (fs w))) (abs_parts w dst) n)
    | None => (ENOENT, w)
    end;
  mkdir_parents := fun d w => (Ret tt, put w (parts (realpath w d)) Dir);
  list_repo_files := fun _ w => (hub_files w, w);
  hf_hub_url := fun repo_id filename =>
    Ret ("https://huggingface.co/" ++ repo_id ++ "/resolve/main/" ++ filename);
  hf_hub_download := fun _ filename d w =>
    if hub_reachable w then
      (Ret (PurePath.str (d // filename)),
       put w (parts (realpath w (d // filename))) (File false))
    else (Raise (Exception "Connection error"), w);
  sh_c := fun _ w => (child w, w)
|}.

Definition cfg : Config :=
  mkConfig "0.9.3" "TheBloke/Llama-2-7B-Chat-GGUF"
           (mkPath "/" ["home"; "u"; "proj"; "models"]).

Definition tree : list (list string * node) :=
  [ (["usr"], Dir); (["usr"; "bin"], Dir);
    (["opt"], Dir); (["opt"; "bin"], Dir);
    (["opt"; "bin"; "localscore"], File true);
    (["home"], Dir); (["home"; "u"], Dir); (["home"; "u"; "proj"], Dir);
    (["home"; "u"; "proj"; "here.gguf"], File false);
    (["home"; "u"; "proj"; "models"], Dir);
    (["home"; "u"; "proj"; "models"; "llama.gguf"], File false) ].

(** The executable is on [PATH]; the child prints two lines and exits
    with status 3. *)
Definition w0 : world :=
  mkWorld (Some "/usr/bin:/nowhere:/opt/bin") ["home"; "u"; "proj"] tree
          (Ret (mkResponse true "" "ELF"))
          (Ret ["README.md"; "llama.Q8_0.gguf"; "llama.Q4_K_M.gguf"])
          true
          (["loading model" ++ Py.nl; "failed" ++ Py.nl],
           Exited 3 "RAN: /bin/sh -c ... exit code: 3").

(** As [w0], with the model hub unreachable. *)
Definition w_offline : world :=
  mkWorld (env_PATH w0) (cwd w0) (fs w0) (http w0)
          (Raise (Exception "Connection error")) false (child w0).

(** No executable anywhere. *)
Definition w_bare : world :=
  mkWorld (Some "/usr/bin") (cwd w0)
          (delete ["opt"; "bin"; "localscore"] tree)
          (http w0) (hub_files w0) true (child w0).

(** The executable is only in the working directory, which is not on
    [PATH]; the child prints one line and succeeds. *)
Definition w_local : world :=
  mkWorld (Some "/usr/bin") (cwd w0)
          ((["home"; "u"; "proj"; "localscore"], File true)
             :: delete ["opt"; "bin"; "localscore"] tree)
          (http w0) (hub_files w0) true
          (["done" ++ Py.nl], Exited 0 "").

Definition args_of (model_path : option string) : Args :=
  mkArgs false model_path false false false.

End Demo.

(** ** Vocabulary of the specification *)

(** The commands handed to the shell, in order. *)
Fixpoint spawned (t : list event) : list string :=
  match t with
  | [] => []
  | Spawn cmd :: t' => cmd :: spawned t'
  | _ :: t' => spawned t'
  end.

(** A computation that starts no process, whatever the world does. *)
Definition never_spawns {W A} (m : M W A) : Prop :=
  forall w, spawned (snd (m w)) = [].

Section Specification.

Context {W : Type} (os : OS W) (cfg : Config).

(** The directory named by the [PATH] entry [d], as the locator sees it. *)
Definition entry_dir (w : W) (d : string) : Path :=
  resolve os w (expanduser os w (PurePath.of_str d)).

(** The [PATH] entry [d] names an existing directory that holds a regular,
    execute-permitted file called [localscore]. *)
Definition dir_matches (w : W) (d : string) : bool :=
  exists_ os w (entry_dir w d) && is_dir os w (entry_dir w d) &&
  is_executable_file os w (entry_dir w d // LOCALSCORE_BIN).

(** Nothing exists at candidate [c]: neither when the path is probed as
    written ([c.exists()]) nor when its canonical form is probed
    ([c.resolve().exists()]).  The script uses the first probe to choose a
    candidate and the second to decide whether the model was found. *)
Definition absent (w : W) (c : Path) : Prop :=
  exists_ os w c = false /\ exists_ os w (resolve os w c) = false.

(** The three parts of the model-not-found diagnostic. *)
Definition not_found_header : event :=
  Stdout ("Error: Model file not found." ++ Py.nl ++ "Looked for:" ++ Py.nl).

Definition looked_for (p : Path) : event :=
  Stdout ("  - " ++ PurePath.str p ++ Py.nl).

Definition model_dir_line : event :=
  Stdout (Py.nl ++ "MODEL_DIR is set to: " ++ PurePath.str (MODEL_DIR cfg) ++ Py.nl).

Definition locator_hint : event :=
  Stdout ("Error: localscore not found in PATH or current directory. Run with --download-localscore first." ++ Py.nl).

(** The command line built for the model path [s] when the executable was
    located at [exe]. *)
Definition command_line (w : W) (exe : Path) (s : string) : string :=
  cmd_name_of os w exe ++ " -m " ++
  PurePath.str (fst (resolve_model_path os cfg w (PurePath.of_str s))).

(** What [run_localscore] returns and prints once the child's output is
    exhausted. *)
Definition after_child (st : sh_status) : outcome Z * list event :=
  match st with
  | Exited 0 _ => (Ret 0, [])
  | Exited code detail =>
      (Ret code, [Stdout ("Error running localscore: " ++ detail ++ Py.nl)])
  | Faulted (Exception m) => (Ret 1, [Stdout ("Error: " ++ m ++ Py.nl)])
  | Faulted (ErrorReturnCode code m) =>
      (Ret code, [Stdout ("Error running localscore: " ++ m ++ Py.nl)])
  | Faulted KeyboardInterrupt => (Raise KeyboardInterrupt, [])
  end.

(** The optional first step of [main]. *)
Definition fetch_binary_step (args : Args) : M W unit :=
  if args_download_localscore args then download_localscore os cfg (args_force args)
  else ret tt.

End Specification.

(** ** Vocabulary for traces and further scenarios *)

(** Every event of every run of [m] satisfies [P]. *)
Definition trace_all {W A} (P : event -> Prop) (m : M W A) : Prop :=
  forall w, Forall P (snd (m w)).

(** A computation that starts at most one process. *)
Definition spawns_at_most_once {W A} (m : M W A) : Prop :=
  forall w, (length (spawned (snd (m w))) <= 1)%nat.

(** The character [sep] does not occur in [x]. *)
Definition free_of_sep (sep : ascii) (x : string) : Prop :=
  ~ In sep (list_ascii_of_string x).

(** Every value [m] can return satisfies [Q]. *)
Definition returns_all {W A} (Q : A -> Prop) (m : M W A) : Prop :=
  forall w a w' t, m w = (Ret a, w', t) -> Q a.

(** A path as [Path(s)] builds it: one of the three roots, and components
    that are non-empty, not ["."] and free of slashes. *)
Definition parsed (p : Path) : Prop := exists s, p = PurePath.of_str s.

(** Printing, the parser's help and starting a process: what the script
    does when it neither downloads nor installs anything. *)
Definition is_local_event (ev : event) : Prop :=
  match ev with
  | Stdout _ | PrintHelp | Spawn _ => True
  | _ => False
  end.

(** What the fetcher may do with target directory [d]: print, list the
    repository, create [d], download into [d]. *)
Definition downloads_into (d : Path) (ev : event) : Prop :=
  match ev with
  | HubDownload _ _ local_dir => local_dir = d
  | Mkdir dir => dir = d
  | Stdout _ | HubListFiles _ => True
  | _ => False
  end.

(** The model file the fetcher picks from a repository listing: the first
    [.gguf] file whose lower-cased name contains [q4], else the first
    [.gguf] file, else nothing. *)
Definition preferred_gguf (files : list string) : option string :=
  match find (fun f => Py.endswith ".gguf" f && Py.contains "q4" (Py.lower f)) files with
  | Some f => Some f
  | None => find (Py.endswith ".gguf") files
  end.

Module Scenario.

(** As [Demo.w_bare], with a server that answers 404. *)
Definition w_404 : Demo.world :=
  Demo.mkWorld (Demo.env_PATH Demo.w_bare) (Demo.cwd Demo.w_bare)
               (Demo.fs Demo.w_bare)
               (Ret (mkResponse false "Client error '404 Not Found'" ""))
               (Demo.hub_files Demo.w_bare) true (Demo.child Demo.w_bare).

(** As [Demo.w0], with the user interrupting the child after its first
    line. *)
Definition w_interrupted : Demo.world :=
  Demo.mkWorld (Demo.env_PATH Demo.w0) (Demo.cwd Demo.w0) (Demo.fs Demo.w0)
               (Demo.http Demo.w0) (Demo.hub_files Demo.w0) true
               (["loading model" ++ Py.nl], Faulted KeyboardInterrupt).

(** As [Demo.w0], with a shell that cannot be started. *)
Definition w_no_shell : Demo.world :=
  Demo.mkWorld (Demo.env_PATH Demo.w0) (Demo.cwd Demo.w0) (Demo.fs Demo.w0)
               (Demo.http Demo.w0) (Demo.hub_files Demo.w0) true
               ([], Faulted (Exception "[Errno 2] No such file or directory")).

(** As [Demo.w0], with the user interrupting the listing of the
    repository. *)
Definition w_hub_interrupted : Demo.world :=
  Demo.mkWorld (Demo.env_PATH Demo.w0) (Demo.cwd Demo.w0) (Demo.fs Demo.w0)
               (Demo.http Demo.w0) (Raise KeyboardInterrupt) true
               (Demo.child Demo.w0).

(** As [Demo.w_local], with [PATH] unset. *)
Definition w_no_PATH : Demo.world :=
  Demo.mkWorld None (Demo.cwd Demo.w_local) (Demo.fs Demo.w_local)
               (Demo.http Demo.w_local) (Demo.hub_files Demo.w_local) true
               (Demo.child Demo.w_local).

(** An operating system on which directories cannot be created. *)
Definition os_read_only : OS Demo.world :=
  mkOS Demo.world
       (environ_get Demo.os) (getcwd Demo.os) (expanduser Demo.os)
       (resolve Demo.os) (exists_ Demo.os) (is_dir Demo.os) (is_file Demo.os)
       (access_X_OK Demo.os) (httpx_get Demo.os) (open_write Demo.os)
       (os_stat_mode Demo.os) (os_chmod Demo.os) (os_remove Demo.os)
       (os_rename Demo.os)
       (fun _ w => (Raise (Exception "[Errno 30] Read-only file system"), w))
       (list_repo_files Demo.os) (hf_hub_url Demo.os) (hf_hub_download Demo.os)
       (sh_c Demo.os).

End Scenario.

(** ** Library calls that raise

    The definitions above take every [pathlib] call as a function that
    answers.  Some of them can raise instead: [expanduser()] raises
    [RuntimeError] when the home directory of a [~user] entry cannot be
    determined; before Python 3.14 [exists()], [is_dir()] and [is_file()]
    re-raise an [OSError] other than "no such file" (permission denied,
    name too long); [Path.cwd()] and [resolve()] fail when the working
    directory is gone.  [os.access] reports every failure as [False].  The
    locator and the runner have no handler around these calls, so such an
    exception leaves them.  A world says which calls raise through an
    oracle, and module [Raising] gives the locator and the runner with these
    exceptions. *)

Inductive oscall : Type :=
| Expanduser (p : Path)      (* p.expanduser() *)
| Resolve (p : Path)         (* p.resolve() *)
| Stat (p : Path)            (* p.exists(), p.is_dir(), p.is_file() *)
| Getcwd.                    (* Path.cwd() *)

Definition Faults (W : Type) : Type := W -> oscall -> option exn.


Module Raising.

Section RaisingProgram.

Context {W : Type} (os : OS W) (flt : Faults W) (cfg : Config).

(** Make the call [c]; go on with [k] when it answers. *)
Definition guard {A} (w : W) (c : oscall) (k : outcome A) : outcome A :=
  match flt w c with
  | Some e => Raise e
  | None => k
  end.

(** The loop over [path_dirs] of [find_localscore]. *)
Fixpoint scan_path_dirs (w : W) (path_dirs : list string) : outcome (option Path) :=
  match path_dirs with
  | [] => Ret None
  | path_dir :: rest =>
      guard w (Expanduser (PurePath.of_str path_dir))
      (guard w (Resolve (expanduser os w (PurePath.of_str path_dir)))
      (let path_dir := resolve os w (expanduser os w (PurePath.of_str path_dir)) in
       guard w (Stat path_dir)
       (if exists_ os w path_dir && is_dir os w path_dir then
          let localscore_path := path_dir // LOCALSCORE_BIN in
          guard w (Stat localscore_path)
          (if exists_ os w localscore_path && is_file os w localscore_path
              && access_X_OK os w localscore_path
           then Ret (Some localscore_path)
           else scan_path_dirs w rest)
        else scan_path_dirs w rest)))
  end.

Definition find_localscore (w : W) : outcome (option Path) :=
  match scan_path_dirs w
          (Py.split ":"%char
             (match environ_get os w "PATH" with Some s => s | None => "" end)) with
  | Raise e => Raise e
  | Ret (Some localscore_path) => Ret (Some localscore_path)
  | Ret None =>
      guard w Getcwd
      (let local_path := getcwd os w // LOCALSCORE_BIN in
       guard w (Stat local_path)
       (if exists_ os w local_path && is_file os w local_path
           && access_X_OK os w local_path
        then guard w (Resolve local_path) (Ret (Some (resolve os w local_path)))
        else Ret None))
  end.

(** Lines 164-176: the path finally used and [tried_paths]. *)
Definition resolve_model_path (w : W) (model_path : Path)
  : outcome (Path * list Path) :=
  if PurePath.is_absolute model_path then
    guard w (Resolve model_path) (Ret (resolve os w model_path, []))
  else
    guard w (Stat model_path)
    (if exists_ os w model_path then
       guard w (Resolve model_path) (Ret (resolve os w model_path, []))
     else
       guard w (Resolve model_path)
       (let model_path_with_base := MODEL_DIR cfg /// model_path in
        guard w (Resolve model_path_with_base)
        (guard w (Stat model_path_with_base)
        (let tried_paths :=
           [resolve os w model_path; resolve os w model_path_with_base] in
         let model_path :=
           if exists_ os w model_path_with_base then model_path_with_base
           else model_path in
         guard w (Resolve model_path) (Ret (resolve os w model_path, tried_paths)))))).

(** A probe that may raise, as a step of the script. *)
Definition attempt {A} (f : W -> outcome A) : M W A := fun w => (f w, w, []).

Definition run_localscore (model_path : string) : M W Z :=
  localscore_path <- attempt find_localscore ;;
  match localscore_path with
  | None =>
      print "Error: localscore not found in PATH or current directory. Run with --download-localscore first." ;;;
      ret 1
  | Some localscore_path =>
      cmd_name <- ask (fun w => cmd_name_of os w localscore_path) ;;
      let model_path := PurePath.of_str model_path in
      resolved <- attempt (fun w => resolve_model_path w model_path) ;;
      let model_path := fst resolved in
      let tried_paths := snd resolved in
      model_exists <- attempt (fun w => guard w (Stat model_path)
                                              (Ret (exists_ os w model_path))) ;;
      if negb model_exists then
        print ("Error: Model file not found." ++ Py.nl ++ "Looked for:") ;;;
        for_each (match tried_paths with [] => [model_path] | _ => tried_paths end)
                 (fun p => print ("  - " ++ PurePath.str p)) ;;;
        print (Py.nl ++ "MODEL_DIR is set to: " ++ PurePath.str (MODEL_DIR cfg)) ;;;
        ret 1
      else
        print ("Running: " ++ cmd_name ++ " -m " ++ PurePath.str model_path) ;;;
        try_except
          (let cmd_str := cmd_name ++ " -m " ++ PurePath.str model_path in
           run <- perform (Spawn cmd_str)
                          (fun w => match sh_c os cmd_str w with
                                    | (r, w') => (Ret r, w')
                                    end) ;;
           for_each (fst run) print_end_empty ;;;
           sh_finish (snd run) ;;;
           ret 0)
          is_Exception
          (fun e =>
             match e with
             | ErrorReturnCode exit_code _ =>
                 print ("Error running localscore: " ++ exn_str e) ;;;
                 ret exit_code
             | _ =>
                 print ("Error: " ++ exn_str e) ;;;
                 ret 1
             end)
  end.

End RaisingProgram.

End Raising.

(** ** Vocabulary for the locator with exceptions *)

Section LocatorVocabulary.

Context {W : Type} (os : OS W) (flt : Faults W).

(** Directory [dir] exists, is a directory, and holds a regular,
    execute-permitted file named [localscore]. *)
Definition holds_executable (w : W) (dir : Path) : bool :=
  exists_ os w dir && is_dir os w dir &&
  exists_ os w (PurePath.joinpath dir (mkPath "" ["localscore"])) &&
  is_file os w (PurePath.joinpath dir (mkPath "" ["localscore"])) &&
  access_X_OK os w (PurePath.joinpath dir (mkPath "" ["localscore"])).

(** The first exception, if any, among the library calls the locator makes
    for the [PATH] entry [d]: expanding it, resolving it, probing the
    directory and, when that is an existing directory, probing the file in
    it. *)
Definition entry_fault (w : W) (d : string) : option exn :=
  match flt w (Expanduser (PurePath.of_str d)) with
  | Some e => Some e
  | None =>
      match flt w (Resolve (expanduser os w (PurePath.of_str d))) with
      | Some e => Some e
      | None =>
          match flt w (Stat (entry_dir os w d)) with
          | Some e => Some e
          | None =>
              if exists_ os w (entry_dir os w d) && is_dir os w (entry_dir os w d)
              then flt w (Stat (PurePath.joinpath (entry_dir os w d)
                                                  (mkPath "" ["localscore"])))
              else None
          end
      end
  end.

End LocatorVocabulary.

Module Faulty.

(** On this machine no library call raises. *)
Definition none : Faults Demo.world := fun _ _ => None.

(** On this machine the home directory of user [ghost] cannot be
    determined. *)
Definition ghost_home : Faults Demo.world :=
  fun _ c =>
    match c with
    | Expanduser p =>
        match parts p with
        | first :: _ =>
            if String.eqb (root p) "" && Py.startswith "~ghost" first
            then Some (Exception "Could not determine home directory.")
            else None
        | [] => None
        end
    | _ => None
    end.

(** As [Demo.w0], with an entry for user [ghost] in front of [PATH]. *)
Definition w_ghost : Demo.world :=
  Demo.mkWorld (Some "~ghost/bin:/opt/bin") (Demo.cwd Demo.w0) (Demo.fs Demo.w0)
               (Demo.http Demo.w0) (Demo.hub_files Demo.w0) true
               (Demo.child Demo.w0).

(** As [Demo.w0], with the directory of the executable written with a
    trailing slash in [PATH]. *)
Definition w_trailing_slash : Demo.world :=
  Demo.mkWorld (Some "/usr/bin:/opt/bin/") (Demo.cwd Demo.w0) (Demo.fs Demo.w0)
               (Demo.http Demo.w0) (Demo.hub_files Demo.w0) true
               (Demo.child Demo.w0).

End Faulty.

(** * Proofs *)

(** ** Python strings and traces *)

Lemma mem_In (x : string) (xs : list string) :
  Py.mem x xs = true <-> In x xs.
Proof.
  unfold Py.mem. rewrite existsb_exists. split.
  - intros [y [Hy Heq]]. apply String.eqb_eq in Heq. now subst.
  - intros Hin. exists x. split; [assumption | apply String.eqb_refl].
Qed.

Lemma spawned_app (t1 t2 : list event) :
  spawned (t1 ++ t2) = (spawned t1 ++ spawned t2)%list.
Proof.
  induction t1 as [| ev t1 IH]; simpl; [reflexivity |].
  destruct ev; simpl; rewrite ?IH; reflexivity.
Qed.

Lemma spawned_map_Stdout (ls : list string) : spawned (map Stdout ls) = [].
Proof. induction ls; simpl; auto. Qed.

Lemma stdout_of_app (t1 t2 : list event) :
  stdout_of (t1 ++ t2) = (stdout_of t1 ++ stdout_of t2)%list.
Proof.
  induction t1 as [| ev t1 IH]; simpl; [reflexivity |].
  destruct ev; simpl; rewrite ?IH; reflexivity.
Qed.

Lemma stdout_of_map_Stdout (ls : list string) : stdout_of (map Stdout ls) = ls.
Proof. induction ls; simpl; congruence. Qed.

(** ** Lexical path facts *)

Lemma parent_of_entry (dir : Path) :
  PurePath.parent (dir // LOCALSCORE_BIN) = dir.
Proof.
  destruct dir as [r ps]. unfold PurePath.parent, PurePath.joinpath. simpl.
  now rewrite removelast_last.
Qed.

(** ** The monad *)

Section MonadFacts.

Context {W : Type}.

Lemma bind_ask {A B} (f : W -> A) (k : A -> M W B) (w : W) :
  bind (ask f) k w = k (f w) w.
Proof. unfold bind, ask. destruct (k (f w) w) as [[r w2] t2]. reflexivity. Qed.

Lemma bind_ret {A B} (a : A) (k : A -> M W B) (w : W) :
  bind (ret a) k w = k a w.
Proof. unfold bind, ret. destruct (k a w) as [[r w2] t2]. reflexivity. Qed.

Lemma bind_print {B} (s : string) (k : unit -> M W B) (w : W) :
  bind (print s) k w = prepend [Stdout (s ++ Py.nl)] (k tt w).
Proof. reflexivity. Qed.

Lemma for_each_print {A} (f : A -> string) (xs : list A) (w : W) :
  for_each xs (fun x => print (f x)) w =
  (Ret tt, w, map (fun x => Stdout (f x ++ Py.nl)) xs).
Proof.
  induction xs as [| x xs IH]; [reflexivity |].
  change (for_each (x :: xs) (fun x => print (f x)) w)
    with (bind (print (f x)) (fun _ => for_each xs (fun x => print (f x))) w).
  unfold bind at 1. unfold print at 1, emit. rewrite IH. reflexivity.
Qed.

Lemma for_each_print_end_empty (ls : list string) (w : W) :
  for_each ls print_end_empty w = (Ret tt, w, map Stdout ls).
Proof.
  induction ls as [| l ls IH]; [reflexivity |].
  change (for_each (l :: ls) print_end_empty w)
    with (bind (print_end_empty l) (fun _ => for_each ls print_end_empty) w).
  unfold bind at 1. unfold print_end_empty at 1, emit. rewrite IH. reflexivity.
Qed.

Lemma never_spawns_ret {A} (a : A) : never_spawns (@ret W A a).
Proof. intro w. reflexivity. Qed.

Lemma never_spawns_raise {A} (e : exn) : never_spawns (@raise W A e).
Proof. intro w. reflexivity. Qed.

Lemma never_spawns_ask {A} (f : W -> A) : never_spawns (ask f).
Proof. intro w. reflexivity. Qed.

Lemma never_spawns_print (s : string) : never_spawns (@print W s).
Proof. intro w. reflexivity. Qed.

Lemma never_spawns_call {A} (f : W -> outcome A * W) :
  never_spawns (call f).
Proof. intro w. unfold call. destruct (f w) as [r w']. reflexivity. Qed.

Lemma never_spawns_perform {A} (ev : event) (f : W -> outcome A * W) :
  is_spawn ev = false -> never_spawns (perform ev f).
Proof.
  intros Hev w. unfold perform. destruct (f w) as [r w']. simpl.
  destruct ev; simpl in *; congruence.
Qed.

Lemma never_spawns_bind {A B} (m : M W A) (f : A -> M W B) :
  never_spawns m -> (forall a, never_spawns (f a)) -> never_spawns (bind m f).
Proof.
  intros Hm Hf w. unfold bind. specialize (Hm w).
  destruct (m w) as [[[a | e] w1] t1]; simpl in *; [| assumption].
  specialize (Hf a w1). destruct (f a w1) as [[r w2] t2]; simpl in *.
  rewrite spawned_app, Hm, Hf. reflexivity.
Qed.

Lemma never_spawns_try_except {A} (m : M W A) (handles : exn -> bool)
      (h : exn -> M W A) :
  never_spawns m -> (forall e, never_spawns (h e)) ->
  never_spawns (try_except m handles h).
Proof.
  intros Hm Hh w. unfold try_except. specialize (Hm w).
  destruct (m w) as [[[a | e] w1] t1]; simpl in *; [assumption |].
  destruct (handles e); simpl; [| assumption].
  specialize (Hh e w1). destruct (h e w1) as [[r w2] t2]; simpl in *.
  rewrite spawned_app, Hm, Hh. reflexivity.
Qed.

End MonadFacts.


(** ** The executable locator *)

Section Locator.

Context {W : Type} (os : OS W).

Lemma scan_path_dirs_cons (w : W) (d : string) (rest : list string) :
  scan_path_dirs os w (d :: rest) =
  if dir_matches os w d then Some (entry_dir os w d // LOCALSCORE_BIN)
  else scan_path_dirs os w rest.
Proof.
  unfold dir_matches, entry_dir. simpl.
  destruct (exists_ os w _ && is_dir os w _); simpl; reflexivity.
Qed.

Lemma scan_path_dirs_first_match (w : W) (l : list string) :
  (exists pre d post,
      l = (pre ++ d :: post)%list /\
      (forall x, In x pre -> dir_matches os w x = false) /\
      dir_matches os w d = true /\
      scan_path_dirs os w l = Some (entry_dir os w d // LOCALSCORE_BIN))
  \/
  ((forall x, In x l -> dir_matches os w x = false) /\
   scan_path_dirs os w l = None).
Proof.
  induction l as [| d l IH].
  - right. split; [intros x [] | reflexivity].
  - rewrite scan_path_dirs_cons.
    destruct (dir_matches os w d) eqn:Hd.
    + left. exists [], d, l. repeat split; auto. intros x [].
    + destruct IH as [(pre & d' & post & Hl & Hpre & Hd' & Hscan) | [Hall Hscan]].
      * left. exists (d :: pre), d', post. subst l. repeat split; auto.
        intros x [<- | Hin]; auto.
      * right. split; [| assumption].
        intros x [<- | Hin]; auto.
Qed.

(** The locator when every library call answers.  Either some [PATH] entry
    is the first, in listed order, to name a
    directory holding a regular, execute-permitted [localscore], and the
    locator returns that directory's entry (nothing after it is looked
    at); or no entry does, and the locator looks at exactly one more place,
    the current working directory, returning its entry resolved when it
    qualifies and [None] otherwise.  The result is always a value: absence
    is [None], never an exception.  An entry that does not name an existing
    directory is skipped without effect. *)
Theorem find_localscore_first_match (w : W) :
  ((exists pre d post,
       path_entries os w = (pre ++ d :: post)%list /\
       (forall x, In x pre -> dir_matches os w x = false) /\
       dir_matches os w d = true /\
       find_localscore os w = Some (entry_dir os w d // LOCALSCORE_BIN))
   \/
   ((forall x, In x (path_entries os w) -> dir_matches os w x = false) /\
    find_localscore os w =
      if is_executable_file os w (getcwd os w // LOCALSCORE_BIN)
      then Some (resolve os w (getcwd os w // LOCALSCORE_BIN))
      else None))
  /\
  (forall d rest,
      exists_ os w (entry_dir os w d) && is_dir os w (entry_dir os w d) = false ->
      scan_path_dirs os w (d :: rest) = scan_path_dirs os w rest).
Proof.
  split.
  - unfold find_localscore.
    destruct (scan_path_dirs_first_match w (path_entries os w))
      as [(pre & d & post & Hl & Hpre & Hd & Hscan) | [Hall Hscan]].
    + left. exists pre, d, post. rewrite Hscan. auto.
    + right. rewrite Hscan. auto.
  - intros d rest Hskip. rewrite scan_path_dirs_cons.
    unfold dir_matches. rewrite Hskip. reflexivity.
Qed.

End Locator.

(** ** Path resolution and the process runner *)

Section Runner.

Context {W : Type} (os : OS W) (cfg : Config).

Lemma resolve_model_path_direct (w : W) (p : Path) :
  PurePath.is_absolute p = true \/ exists_ os w p = true ->
  forall cfg', resolve_model_path os cfg' w p = (resolve os w p, []).
Proof.
  intros H cfg'. unfold resolve_model_path.
  destruct H as [H | H]; rewrite H; simpl; rewrite ?andb_false_r; reflexivity.
Qed.

Lemma resolve_model_path_fallback (w : W) (p : Path) :
  PurePath.is_absolute p = false -> exists_ os w p = false ->
  resolve_model_path os cfg w p =
  (resolve os w (if exists_ os w (MODEL_DIR cfg /// p) then MODEL_DIR cfg /// p else p),
   [resolve os w p; resolve os w (MODEL_DIR cfg /// p)]).
Proof.
  intros Habs Hex. unfold resolve_model_path. rewrite Habs, Hex. reflexivity.
Qed.

Lemma run_localscore_no_executable (w : W) (s : string) :
  find_localscore os w = None ->
  run_localscore os cfg s w = (Ret 1, w, [locator_hint]).
Proof.
  intros Hfind. unfold run_localscore. rewrite bind_ask, Hfind. reflexivity.
Qed.

(** The model-not-found exit of [run_localscore]. *)
Lemma run_localscore_missing_model (w : W) (s : string) (exe : Path) :
  find_localscore os w = Some exe ->
  exists_ os w (fst (resolve_model_path os cfg w (PurePath.of_str s))) = false ->
  run_localscore os cfg s w =
  (Ret 1, w,
   not_found_header ::
   map looked_for
       (match snd (resolve_model_path os cfg w (PurePath.of_str s)) with
        | [] => [fst (resolve_model_path os cfg w (PurePath.of_str s))]
        | _ => snd (resolve_model_path os cfg w (PurePath.of_str s))
        end) ++ [model_dir_line cfg])%list.
Proof.
  intros Hfind Hex. unfold run_localscore.
  rewrite bind_ask, Hfind. rewrite !bind_ask. cbv zeta. rewrite Hex.
  cbn [negb]. rewrite bind_print.
  unfold bind at 1. rewrite for_each_print.
  reflexivity.
Qed.

(** The running exit of [run_localscore]: one process is started with
    [command_line], its lines are relayed in order, and the way it ended
    decides the result. *)
Lemma run_localscore_runs (w w' : W) (s : string) (exe : Path)
      (lines : list string) (st : sh_status) :
  find_localscore os w = Some exe ->
  exists_ os w (fst (resolve_model_path os cfg w (PurePath.of_str s))) = true ->
  sh_c os (command_line os cfg w exe s) w = ((lines, st), w') ->
  run_localscore os cfg s w =
  (fst (after_child st), w',
   Stdout ("Running: " ++ command_line os cfg w exe s ++ Py.nl) ::
   Spawn (command_line os cfg w exe s) ::
   map Stdout lines ++ snd (after_child st))%list.
Proof.
  intros Hfind Hex Hsh. unfold run_localscore.
  rewrite bind_ask, Hfind. rewrite !bind_ask. cbv zeta. rewrite Hex.
  cbn [negb]. rewrite bind_print.
  fold (command_line os cfg w exe s).
  unfold try_except, bind at 1, perform at 1. rewrite Hsh.
  cbn [fst snd]. unfold bind at 1. rewrite for_each_print_end_empty.
  destruct st as [[| c | c] detail | [m | c m |]];
    cbn -[String.append]; rewrite ?app_nil_r, <- ?app_assoc; reflexivity.
Qed.

Lemma spawned_after_child (st : sh_status) : spawned (snd (after_child st)) = [].
Proof. destruct st as [[| c | c] detail | [m | c m |]]; reflexivity. Qed.

(** Whenever the runner is reached it starts exactly one process, with
    [command_line]. *)
Lemma run_localscore_spawns_once (w : W) (s : string) (exe : Path) :
  find_localscore os w = Some exe ->
  exists_ os w (fst (resolve_model_path os cfg w (PurePath.of_str s))) = true ->
  spawned (snd (run_localscore os cfg s w)) = [command_line os cfg w exe s].
Proof.
  intros Hfind Hex.
  destruct (sh_c os (command_line os cfg w exe s) w) as [[lines st] w'] eqn:Hsh.
  rewrite (run_localscore_runs w w' s exe lines st Hfind Hex Hsh).
  cbn [snd spawned]. rewrite spawned_app, spawned_map_Stdout, spawned_after_child.
  reflexivity.
Qed.

(** A child that exits with status [n] makes [run_localscore] return [n],
    after its lines were printed in the order they arrived. *)
Lemma run_localscore_forwards_status (w w' : W) (s : string) (exe : Path)
      (lines : list string) (n : Z) (detail : string) :
  find_localscore os w = Some exe ->
  exists_ os w (fst (resolve_model_path os cfg w (PurePath.of_str s))) = true ->
  sh_c os (command_line os cfg w exe s) w = ((lines, Exited n detail), w') ->
  exists t,
    run_localscore os cfg s w = (Ret n, w', t) /\
    exists tail,
      stdout_of t =
      (("Running: " ++ command_line os cfg w exe s ++ Py.nl)%string
         :: lines ++ tail)%list.
Proof.
  intros Hfind Hex Hsh.
  rewrite (run_localscore_runs w w' s exe lines _ Hfind Hex Hsh).
  eexists. split.
  - destruct n; reflexivity.
  - exists (stdout_of (snd (after_child (Exited n detail)))).
    cbn [snd stdout_of]. rewrite stdout_of_app, stdout_of_map_Stdout. reflexivity.
Qed.

End Runner.

(** ** Properties of path resolution and of the command line *)

Section Resolution.

Context {W : Type} (os : OS W) (cfg : Config).

(** C8.  A relative model path that exists relative to the working directory
    is used as it is: the resolution phase returns its canonical form and an
    empty tried-list, whatever the base directory is (the configuration plays
    no part in the result), and the runner, once reached, is handed exactly
    that canonical path. *)
Theorem resolve_model_path_existing_relative (w : W) (p : Path) :
  PurePath.is_absolute p = false ->
  exists_ os w p = true ->
  resolve_model_path os cfg w p = (resolve os w p, []) /\
  (forall cfg', resolve_model_path os cfg' w p = resolve_model_path os cfg w p) /\
  (forall s exe,
      p = PurePath.of_str s ->
      find_localscore os w = Some exe ->
      exists_ os w (resolve os w p) = true ->
      spawned (snd (run_localscore os cfg s w)) =
      [cmd_name_of os w exe ++ " -m " ++ PurePath.str (resolve os w p)]).
Proof.
  intros Hrel Hex.
  assert (Hdirect : forall cfg', resolve_model_path os cfg' w p = (resolve os w p, []))
    by (apply resolve_model_path_direct; auto).
  repeat split.
  - apply Hdirect.
  - intros cfg'. now rewrite !Hdirect.
  - intros s exe -> Hfind Hcanon.
    rewrite (run_localscore_spawns_once os cfg w s exe Hfind).
    + unfold command_line. now rewrite Hdirect.
    + now rewrite Hdirect.
Qed.

(** C2.  A relative model path that does not exist relative to the working
    directory but exists under [MODEL_DIR]: the resolution phase returns the
    canonical form of the [MODEL_DIR]-joined candidate, and the tried-list
    is exactly the canonical original followed by the canonical joined
    candidate. *)
Theorem resolve_model_path_uses_model_dir (w : W) (p : Path) :
  PurePath.is_absolute p = false ->
  exists_ os w p = false ->
  exists_ os w (MODEL_DIR cfg /// p) = true ->
  resolve_model_path os cfg w p =
  (resolve os w (MODEL_DIR cfg /// p),
   [resolve os w p; resolve os w (MODEL_DIR cfg /// p)]) /\
  (forall s exe,
      p = PurePath.of_str s ->
      find_localscore os w = Some exe ->
      exists_ os w (resolve os w (MODEL_DIR cfg /// p)) = true ->
      spawned (snd (run_localscore os cfg s w)) =
      [cmd_name_of os w exe ++ " -m " ++
       PurePath.str (resolve os w (MODEL_DIR cfg /// p))]).
Proof.
  intros Hrel Hex Hbase.
  assert (Hres : resolve_model_path os cfg w p =
                 (resolve os w (MODEL_DIR cfg /// p),
                  [resolve os w p; resolve os w (MODEL_DIR cfg /// p)])).
  { rewrite resolve_model_path_fallback by assumption. now rewrite Hbase. }
  split; [exact Hres |].
  intros s exe -> Hfind Hcanon.
  rewrite (run_localscore_spawns_once os cfg w s exe Hfind).
  - unfold command_line. now rewrite Hres.
  - now rewrite Hres.
Qed.

(** The runner when every library call answers.  A relative model path for
    which nothing exists at either candidate
    (the path relative to the working directory, the path joined under
    [MODEL_DIR]): [run_localscore] returns 1, leaves the world as it was and
    starts no process; when the executable was located, what it prints is
    the not-found diagnostic, listing the two candidates in canonical form,
    in the order tried, and then [MODEL_DIR]. *)
Theorem run_localscore_model_absent (w : W) (s : string) :
  PurePath.is_absolute (PurePath.of_str s) = false ->
  absent os w (PurePath.of_str s) ->
  absent os w (MODEL_DIR cfg /// PurePath.of_str s) ->
  exists t,
    run_localscore os cfg s w = (Ret 1, w, t) /\
    spawned t = [] /\
    (find_localscore os w <> None ->
     t = [not_found_header;
          looked_for (resolve os w (PurePath.of_str s));
          looked_for (resolve os w (MODEL_DIR cfg /// PurePath.of_str s));
          model_dir_line cfg]).
Proof.
  intros Hrel [Hex Hcanon] [Hbase _].
  assert (Hres : resolve_model_path os cfg w (PurePath.of_str s) =
                 (resolve os w (PurePath.of_str s),
                  [resolve os w (PurePath.of_str s);
                   resolve os w (MODEL_DIR cfg /// PurePath.of_str s)])).
  { rewrite resolve_model_path_fallback by assumption. now rewrite Hbase. }
  destruct (find_localscore os w) as [exe |] eqn:Hfind.
  - eexists. split; [| split].
    + apply (run_localscore_missing_model os cfg w s exe Hfind).
      now rewrite Hres.
    + rewrite Hres. reflexivity.
    + intros _. rewrite Hres. reflexivity.
  - exists [locator_hint]. split; [| split].
    + now apply run_localscore_no_executable.
    + reflexivity.
    + intros Hne. now elim Hne.
Qed.

(** The runner when every library call answers.  An absolute model path at
    which nothing exists: the tried-list
    stays empty and [MODEL_DIR] plays no part in the resolution (the result
    is the same for every configuration); [run_localscore] returns 1 without
    starting a process, and the not-found diagnostic lists one candidate,
    the supplied path in canonical form. *)
Theorem run_localscore_absolute_absent (w : W) (s : string) :
  PurePath.is_absolute (PurePath.of_str s) = true ->
  absent os w (PurePath.of_str s) ->
  (forall cfg', resolve_model_path os cfg' w (PurePath.of_str s) =
                (resolve os w (PurePath.of_str s), [])) /\
  exists t,
    run_localscore os cfg s w = (Ret 1, w, t) /\
    spawned t = [] /\
    (find_localscore os w <> None ->
     t = [not_found_header;
          looked_for (resolve os w (PurePath.of_str s));
          model_dir_line cfg]).
Proof.
  intros Habs [_ Hcanon].
  assert (Hres : forall cfg', resolve_model_path os cfg' w (PurePath.of_str s) =
                              (resolve os w (PurePath.of_str s), []))
    by (apply resolve_model_path_direct; auto).
  split; [exact Hres |].
  destruct (find_localscore os w) as [exe |] eqn:Hfind.
  - eexists. split; [| split].
    + apply (run_localscore_missing_model os cfg w s exe Hfind).
      now rewrite Hres.
    + rewrite Hres. reflexivity.
    + intros _. rewrite Hres. reflexivity.
  - exists [locator_hint]. split; [| split].
    + now apply run_localscore_no_executable.
    + reflexivity.
    + intros Hne. now elim Hne.
Qed.

(** The test the script makes to choose the command name.  Whenever the
    runner starts the executable located at [exe]: if the text of the
    directory containing [exe] is one of the entries of [PATH], the command
    line starts with the bare name [localscore]; otherwise it starts with
    the absolute path of [exe].  In both cases exactly one command is handed
    to the shell.  An entry counts when its text is the string form of the
    directory, which is how the script compares them; in particular an
    executable found through an entry written in canonical form is run by
    bare name. *)
Theorem run_localscore_command_name (w : W) (s : string) (exe : Path) :
  find_localscore os w = Some exe ->
  exists_ os w (fst (resolve_model_path os cfg w (PurePath.of_str s))) = true ->
  (In (PurePath.str (PurePath.parent exe)) (path_entries os w) ->
   spawned (snd (run_localscore os cfg s w)) =
   ["localscore -m " ++
    PurePath.str (fst (resolve_model_path os cfg w (PurePath.of_str s)))]) /\
  (~ In (PurePath.str (PurePath.parent exe)) (path_entries os w) ->
   spawned (snd (run_localscore os cfg s w)) =
   [PurePath.str exe ++ " -m " ++
    PurePath.str (fst (resolve_model_path os cfg w (PurePath.of_str s)))]) /\
  (forall d,
      In d (path_entries os w) ->
      exe = entry_dir os w d // LOCALSCORE_BIN ->
      PurePath.str (entry_dir os w d) = d ->
      spawned (snd (run_localscore os cfg s w)) =
      ["localscore -m " ++
       PurePath.str (fst (resolve_model_path os cfg w (PurePath.of_str s)))]).
Proof.
  intros Hfind Hex.
  rewrite (run_localscore_spawns_once os cfg w s exe Hfind Hex).
  unfold command_line, cmd_name_of.
  assert (Hbare : In (PurePath.str (PurePath.parent exe)) (path_entries os w) ->
                  Py.mem (PurePath.str (PurePath.parent exe)) (path_entries os w) = true)
    by (intros Hin; now apply mem_In).
  split; [| split].
  - intros Hin. rewrite (Hbare Hin). reflexivity.
  - intros Hin. destruct (Py.mem _ _) eqn:Hmem; [| reflexivity].
    apply mem_In in Hmem. contradiction.
  - intros d Hin -> Hcanon. rewrite parent_of_entry in Hbare |- *.
    rewrite Hcanon in Hbare |- *. rewrite (Hbare Hin). reflexivity.
Qed.

End Resolution.

(** ** Properties of the download flow and of the orchestrator *)

Ltac no_spawn :=
  repeat first
    [ apply never_spawns_ret
    | apply never_spawns_raise
    | apply never_spawns_ask
    | apply never_spawns_print
    | apply never_spawns_call
    | apply never_spawns_perform; reflexivity
    | apply never_spawns_try_except; [| intro]
    | apply never_spawns_bind; [| intro]
    | match goal with
      | |- never_spawns (if ?b then _ else _) => destruct b
      | |- never_spawns (match ?x with _ => _ end) => destruct x
      end ].

Section Orchestrator.

Context {W : Type} (os : OS W) (cfg : Config).

Lemma download_localscore_never_spawns (force : bool) :
  never_spawns (download_localscore os cfg force).
Proof. unfold download_localscore. no_spawn. Qed.

Lemma choose_gguf_never_spawns (repo_id : string) (filename : option string) :
  never_spawns (choose_gguf os repo_id filename).
Proof. unfold choose_gguf. no_spawn. Qed.

Lemma download_model_from_hf_never_spawns (repo_id filename : option string) :
  never_spawns (download_model_from_hf os cfg repo_id filename).
Proof.
  unfold download_model_from_hf.
  apply never_spawns_bind; [no_spawn | intro].
  apply never_spawns_bind; [no_spawn | intro].
  apply never_spawns_try_except; [| intro; no_spawn].
  apply never_spawns_bind; [apply choose_gguf_never_spawns | intro].
  no_spawn.
Qed.

Lemma fetch_binary_step_never_spawns (args : Args) :
  never_spawns (fetch_binary_step os cfg args).
Proof.
  unfold fetch_binary_step. destruct (args_download_localscore args).
  - apply download_localscore_never_spawns.
  - apply never_spawns_ret.
Qed.

(** [main] up to the point where the model fetch has been decided. *)
Lemma main_after_binary_step (args : Args) (w w1 : W) (t1 : list event) :
  args_help args = false ->
  fetch_binary_step os cfg args w = (Ret tt, w1, t1) ->
  main os cfg args w =
  prepend t1
    (bind
       (if args_download_model args then
          model_path <- download_model_from_hf os cfg None None ;;
          match model_path with
          | None => print "Failed to download model." ;;; ret (inl 1)
          | Some model_path =>
              if negb (truthy (args_model_path args))
              then ret (inr (Some (PurePath.str model_path)))
              else ret (inr (args_model_path args))
          end
        else ret (inr (args_model_path args)))
       (fun fetched =>
          match fetched with
          | inl code => ret code
          | inr None => emit PrintHelp ;;; ret 0
          | inr (Some model_path) =>
              if String.eqb model_path "" then emit PrintHelp ;;; ret 0
              else run_localscore os cfg model_path
          end) w1).
Proof.
  intros Hhelp Hstep. unfold main. rewrite Hhelp.
  unfold bind at 1. fold (fetch_binary_step os cfg args). rewrite Hstep.
  reflexivity.
Qed.

(** Whatever [main] returns, the process ends with status 0. *)
Lemma script_after_return (args : Args) (w w' : W) (n : Z) (t : list event) :
  main os cfg args w = (Ret n, w', t) -> script os cfg args w = (0, w', t).
Proof. intros H. unfold script. rewrite H. reflexivity. Qed.

(** With no flag and a non-empty model path, [main] is [run_localscore]. *)
Lemma main_runs (args : Args) (s : string) (w : W) :
  args_help args = false ->
  args_download_localscore args = false ->
  args_download_model args = false ->
  args_model_path args = Some s ->
  s <> "" ->
  main os cfg args w = run_localscore os cfg s w.
Proof.
  intros Hhelp Hbin Hmodel Hpath Hs. unfold main.
  rewrite Hhelp, Hbin, Hmodel, Hpath. rewrite !bind_ret.
  apply String.eqb_neq in Hs. rewrite Hs. reflexivity.
Qed.

(** The status of the child reaches [main]'s caller and stops there: the
    process ends with status 0 whatever the child's status [n] was. *)
Lemma script_drops_child_status (args : Args) (s : string) (w w' : W)
      (exe : Path) (lines : list string) (n : Z) (detail : string) :
  args_help args = false ->
  args_download_localscore args = false ->
  args_download_model args = false ->
  args_model_path args = Some s ->
  s <> "" ->
  find_localscore os w = Some exe ->
  exists_ os w (fst (resolve_model_path os cfg w (PurePath.of_str s))) = true ->
  sh_c os (command_line os cfg w exe s) w = ((lines, Exited n detail), w') ->
  exists t,
    main os cfg args w = (Ret n, w', t) /\
    script os cfg args w = (0, w', t).
Proof.
  intros Hhelp Hbin Hmodel Hpath Hs Hfind Hex Hsh.
  destruct (run_localscore_forwards_status os cfg w w' s exe lines n detail
              Hfind Hex Hsh) as (t & Hrun & _).
  exists t.
  assert (Hmain : main os cfg args w = (Ret n, w', t))
    by (rewrite (main_runs args s w) by assumption; exact Hrun).
  split; [exact Hmain | exact (script_after_return args w w' n t Hmain)].
Qed.

(** C9.  When the executable can already be located and [force] is not set,
    the download flow prints the informational line and returns: the world
    is untouched and the trace holds no network request and no file-system
    write.  Invoking it again from where it ended does the same. *)
Theorem download_localscore_skips_when_available (w : W) (exe : Path) :
  find_localscore os w = Some exe ->
  download_localscore os cfg false w =
  (Ret tt, w,
   [Stdout ("localscore is already available. Use --force to download anyway." ++ Py.nl)]) /\
  filter is_network (snd (download_localscore os cfg false w)) = [] /\
  filter is_fs_write (snd (download_localscore os cfg false w)) = [] /\
  (download_localscore os cfg false ;;; download_localscore os cfg false) w =
  (Ret tt, w,
   [Stdout ("localscore is already available. Use --force to download anyway." ++ Py.nl);
    Stdout ("localscore is already available. Use --force to download anyway." ++ Py.nl)]).
Proof.
  intros Hfind.
  assert (Hrun : download_localscore os cfg false w =
                 (Ret tt, w,
                  [Stdout ("localscore is already available. Use --force to download anyway." ++ Py.nl)])).
  { unfold download_localscore. rewrite bind_ask, Hfind. reflexivity. }
  repeat split.
  - exact Hrun.
  - rewrite Hrun. reflexivity.
  - rewrite Hrun. reflexivity.
  - unfold bind at 1. rewrite Hrun, Hrun. reflexivity.
Qed.

(** What [main] does when the fetch fails.  With the model-fetch flag set,
    once the fetcher has signalled failure, [main] prints the failure line and returns 1, whether or not a
    positional model path was given; nothing in the whole run starts a
    process. *)
Theorem main_aborts_when_model_fetch_fails
        (args : Args) (w w1 w2 : W) (t1 t2 : list event) :
  args_help args = false ->
  args_download_model args = true ->
  fetch_binary_step os cfg args w = (Ret tt, w1, t1) ->
  download_model_from_hf os cfg None None w1 = (Ret None, w2, t2) ->
  main os cfg args w =
  (Ret 1, w2,
   (t1 ++ t2 ++ [Stdout ("Failed to download model." ++ Py.nl)])%list) /\
  spawned (snd (main os cfg args w)) = [].
Proof.
  intros Hhelp Hflag Hstep Hfetch.
  assert (Hmain : main os cfg args w =
                  (Ret 1, w2,
                   (t1 ++ t2 ++ [Stdout ("Failed to download model." ++ Py.nl)])%list)).
  { rewrite (main_after_binary_step args w w1 t1 Hhelp Hstep), Hflag.
    unfold bind at 1. unfold bind at 1. rewrite Hfetch.
    cbn -[String.append]. rewrite app_nil_r. reflexivity. }
  split; [exact Hmain |].
  rewrite Hmain. cbn [snd]. rewrite !spawned_app.
  pose proof (fetch_binary_step_never_spawns args w) as H1.
  pose proof (download_model_from_hf_never_spawns None None w1) as H2.
  rewrite Hstep in H1. rewrite Hfetch in H2. cbn [snd] in H1, H2.
  rewrite H1, H2. reflexivity.
Qed.

(** C7.  With [-h]/[--help], the usage text is printed and the process ends
    with status 0; nothing else happens, whatever the other flags are.
    Without it, when no model path was given and none is fetched, the
    parser's help is printed after the optional executable download and the
    process ends with status 0; in neither case is a process started. *)
Theorem main_usage_exits_zero (args : Args) (w : W) :
  (args_help args = true ->
   main os cfg args w = (Ret 0, w, [Stdout (doc_stripped ++ Py.nl)]) /\
   script os cfg args w = (0, w, [Stdout (doc_stripped ++ Py.nl)]))
  /\
  (forall w1 t1,
      args_help args = false ->
      args_download_model args = false ->
      truthy (args_model_path args) = false ->
      fetch_binary_step os cfg args w = (Ret tt, w1, t1) ->
      main os cfg args w = (Ret 0, w1, (t1 ++ [PrintHelp])%list) /\
      script os cfg args w = (0, w1, (t1 ++ [PrintHelp])%list) /\
      spawned (t1 ++ [PrintHelp]) = []).
Proof.
  split.
  - intros Hhelp.
    assert (Hmain : main os cfg args w = (Ret 0, w, [Stdout (doc_stripped ++ Py.nl)]))
      by (unfold main; rewrite Hhelp; reflexivity).
    split; [exact Hmain | exact (script_after_return args w w 0 _ Hmain)].
  - intros w1 t1 Hhelp Hflag Hnone Hstep.
    assert (Hmain : main os cfg args w = (Ret 0, w1, (t1 ++ [PrintHelp])%list)).
    { rewrite (main_after_binary_step args w w1 t1 Hhelp Hstep), Hflag.
      rewrite bind_ret.
      destruct (args_model_path args) as [m |]; [| reflexivity].
      simpl in Hnone. apply negb_false_iff in Hnone. rewrite Hnone. reflexivity. }
    split; [exact Hmain |].
    split; [exact (script_after_return args w w1 0 _ Hmain) |].
    rewrite spawned_app.
    pose proof (fetch_binary_step_never_spawns args w) as H1.
    rewrite Hstep in H1. cbn [snd] in H1. rewrite H1. reflexivity.
Qed.

End Orchestrator.

(** ** The properties at work on the concrete world *)

(** On [Demo.w0] the two probes of a path disagree for a path that climbs
    out of a missing directory: probed as written it does not exist, its
    canonical form does.  This is why [absent] speaks of both. *)
Example probes_can_disagree :
  exists_ Demo.os Demo.w0 (PurePath.of_str "missing/../here.gguf") = false /\
  exists_ Demo.os Demo.w0
          (resolve Demo.os Demo.w0 (PurePath.of_str "missing/../here.gguf")) = true.
Proof. split; reflexivity. Qed.

(** Downloading twice on a machine without the executable: the first call
    fetches and installs it, the second only prints the informational line. *)
Example download_twice :
  forall w1 t1,
    download_localscore Demo.os Demo.cfg false Demo.w_bare = (Ret tt, w1, t1) ->
    filter is_network t1 = [HttpGet "https://blob.localscore.ai/localscore-0.9.3"] /\
    snd (download_localscore Demo.os Demo.cfg false w1) =
    [Stdout ("localscore is already available. Use --force to download anyway." ++ Py.nl)].
Proof.
  intros w1 t1 H. vm_compute in H. injection H as <- <-. split; reflexivity.
Qed.

(** C1.  The executable is on [PATH], the model resolves under [MODEL_DIR]
    and the child exits with status 3 after printing two lines:
    [run_localscore], and with it [main], returns 3 and the lines were
    printed in the order they arrived, but the entry point calls [main()]
    without using its result, so the process ends with status 0, not 3. *)
Theorem script_exit_status_is_not_the_child_status :
  find_localscore Demo.os Demo.w0 = Some (mkPath "/" ["opt"; "bin"; "localscore"]) /\
  snd (Demo.child Demo.w0) = Exited 3 "RAN: /bin/sh -c ... exit code: 3" /\
  fst (main Demo.os Demo.cfg (Demo.args_of (Some "llama.gguf")) Demo.w0) =
  (Ret 3, Demo.w0) /\
  stdout_of (snd (main Demo.os Demo.cfg (Demo.args_of (Some "llama.gguf")) Demo.w0)) =
  ["Running: localscore -m /home/u/proj/models/llama.gguf" ++ Py.nl;
   "loading model" ++ Py.nl;
   "failed" ++ Py.nl;
   "Error running localscore: RAN: /bin/sh -c ... exit code: 3" ++ Py.nl] /\
  script Demo.os Demo.cfg (Demo.args_of (Some "llama.gguf")) Demo.w0 =
  (0, Demo.w0, snd (main Demo.os Demo.cfg (Demo.args_of (Some "llama.gguf")) Demo.w0)).
Proof. repeat split; vm_compute; reflexivity. Qed.

Lemma resolve_model_path_existing_relative_witness :
  resolve_model_path Demo.os Demo.cfg Demo.w0 (PurePath.of_str "here.gguf") =
  (mkPath "/" ["home"; "u"; "proj"; "here.gguf"], []).
Proof.
  exact (proj1 (resolve_model_path_existing_relative
                  Demo.os Demo.cfg Demo.w0 (PurePath.of_str "here.gguf")
                  eq_refl eq_refl)).
Defined.

Lemma resolve_model_path_uses_model_dir_witness :
  resolve_model_path Demo.os Demo.cfg Demo.w0 (PurePath.of_str "llama.gguf") =
  (mkPath "/" ["home"; "u"; "proj"; "models"; "llama.gguf"],
   [mkPath "/" ["home"; "u"; "proj"; "llama.gguf"];
    mkPath "/" ["home"; "u"; "proj"; "models"; "llama.gguf"]]).
Proof.
  exact (proj1 (resolve_model_path_uses_model_dir
                  Demo.os Demo.cfg Demo.w0 (PurePath.of_str "llama.gguf")
                  eq_refl eq_refl eq_refl)).
Defined.

Lemma download_localscore_skips_when_available_witness :
  download_localscore Demo.os Demo.cfg false Demo.w0 =
  (Ret tt, Demo.w0,
   [Stdout ("localscore is already available. Use --force to download anyway." ++ Py.nl)]).
Proof.
  exact (proj1 (download_localscore_skips_when_available
                  Demo.os Demo.cfg Demo.w0
                  (mkPath "/" ["opt"; "bin"; "localscore"]) eq_refl)).
Defined.

Lemma main_usage_exits_zero_witness :
  script Demo.os Demo.cfg (mkArgs true (Some "llama.gguf") true true true) Demo.w_bare =
  (0, Demo.w_bare, [Stdout (doc_stripped ++ Py.nl)]) /\
  script Demo.os Demo.cfg (Demo.args_of None) Demo.w0 = (0, Demo.w0, [PrintHelp]).
Proof.
  split.
  - exact (proj2 (proj1 (main_usage_exits_zero
                           Demo.os Demo.cfg
                           (mkArgs true (Some "llama.gguf") true true true)
                           Demo.w_bare) eq_refl)).
  - exact (proj1 (proj2 (proj2 (main_usage_exits_zero
                                  Demo.os Demo.cfg (Demo.args_of None) Demo.w0)
                               Demo.w0 [] eq_refl eq_refl eq_refl eq_refl))).
Defined.

(** * Further properties of the script *)

(** ** Traces *)

Section TraceFacts.

Context {W : Type} (P : event -> Prop).

Lemma trace_all_ret {A} (a : A) : trace_all P (@ret W A a).
Proof. intro w. constructor. Qed.

Lemma trace_all_raise {A} (e : exn) : trace_all P (@raise W A e).
Proof. intro w. constructor. Qed.

Lemma trace_all_ask {A} (f : W -> A) : trace_all P (ask f).
Proof. intro w. constructor. Qed.

Lemma trace_all_emit (ev : event) : P ev -> trace_all P (@emit W ev).
Proof. intros H w. repeat constructor. exact H. Qed.

Lemma trace_all_print (s : string) :
  P (Stdout (s ++ Py.nl)) -> trace_all P (@print W s).
Proof. intros H. apply trace_all_emit. exact H. Qed.

Lemma trace_all_print_end_empty (s : string) :
  P (Stdout s) -> trace_all P (@print_end_empty W s).
Proof. intros H. apply trace_all_emit. exact H. Qed.

Lemma trace_all_perform {A} (ev : event) (f : W -> outcome A * W) :
  P ev -> trace_all P (perform ev f).
Proof.
  intros H w. unfold perform. destruct (f w) as [r w']. repeat constructor.
  exact H.
Qed.

Lemma trace_all_call {A} (f : W -> outcome A * W) : trace_all P (call f).
Proof. intro w. unfold call. destruct (f w) as [r w']. constructor. Qed.

Lemma trace_all_bind {A B} (m : M W A) (f : A -> M W B) :
  trace_all P m -> (forall a, trace_all P (f a)) -> trace_all P (bind m f).
Proof.
  intros Hm Hf w. unfold bind. specialize (Hm w).
  destruct (m w) as [[[a | e] w1] t1]; simpl in *; [| assumption].
  specialize (Hf a w1). destruct (f a w1) as [[r w2] t2]; simpl in *.
  apply Forall_app. split; assumption.
Qed.

Lemma trace_all_try_except {A} (m : M W A) (handles : exn -> bool)
      (h : exn -> M W A) :
  trace_all P m -> (forall e, trace_all P (h e)) ->
  trace_all P (try_except m handles h).
Proof.
  intros Hm Hh w. unfold try_except. specialize (Hm w).
  destruct (m w) as [[[a | e] w1] t1]; simpl in *; [assumption |].
  destruct (handles e); simpl; [| assumption].
  specialize (Hh e w1). destruct (h e w1) as [[r w2] t2]; simpl in *.
  apply Forall_app. split; assumption.
Qed.

Lemma trace_all_for_each {A} (xs : list A) (body : A -> M W unit) :
  (forall x, trace_all P (body x)) -> trace_all P (for_each xs body).
Proof.
  intros Hbody. induction xs as [| x xs IH].
  - apply trace_all_ret.
  - apply trace_all_bind; [apply Hbody | intros _; exact IH].
Qed.

End TraceFacts.

Ltac trace_step :=
  first
    [ apply trace_all_ret
    | apply trace_all_raise
    | apply trace_all_ask
    | apply trace_all_call
    | apply trace_all_print; simpl; auto
    | apply trace_all_print_end_empty; simpl; auto
    | apply trace_all_emit; simpl; auto
    | apply trace_all_perform; simpl; auto
    | apply trace_all_for_each; intro
    | apply trace_all_try_except; [| intro]
    | apply trace_all_bind; [| intro]
    | match goal with
      | |- trace_all _ (if ?b then _ else _) => destruct b
      | |- trace_all _ (match ?x with _ => _ end) => destruct x
      end ].

Ltac trace_all_tac := repeat trace_step.

Lemma local_events_offline (t : list event) :
  Forall is_local_event t ->
  filter is_network t = [] /\ filter is_fs_write t = [].
Proof.
  induction 1 as [| ev t Hev _ [IHn IHw]]; [split; reflexivity |].
  destruct ev; simpl in *; try contradiction; auto.
Qed.

Lemma spawned_looked_for (ps : list Path) : spawned (map looked_for ps) = [].
Proof. induction ps; simpl; auto. Qed.

Section SpawnFacts.

Context {W : Type}.

Lemma spawns_at_most_once_of_never {A} (m : M W A) :
  never_spawns m -> spawns_at_most_once m.
Proof. intros H w. rewrite (H w). simpl. lia. Qed.

Lemma spawns_at_most_once_bind {A B} (m : M W A) (f : A -> M W B) :
  never_spawns m -> (forall a, spawns_at_most_once (f a)) ->
  spawns_at_most_once (bind m f).
Proof.
  intros Hm Hf w. unfold bind. specialize (Hm w).
  destruct (m w) as [[[a | e] w1] t1]; simpl in *.
  - specialize (Hf a w1). destruct (f a w1) as [[r w2] t2]; simpl in *.
    rewrite spawned_app, Hm. exact Hf.
  - rewrite Hm. simpl. lia.
Qed.

End SpawnFacts.

(** ** The runner and the orchestrator as a whole *)

Section WholeRun.

Context {W : Type} (os : OS W) (cfg : Config).

Lemma run_localscore_trace_local (s : string) :
  trace_all is_local_event (run_localscore os cfg s).
Proof.
  unfold run_localscore, sh_finish. cbv zeta. trace_all_tac.
Qed.

Lemma run_localscore_spawns_at_most_once (s : string) :
  spawns_at_most_once (run_localscore os cfg s).
Proof.
  intro w.
  destruct (find_localscore os w) as [exe |] eqn:Hfind.
  - destruct (exists_ os w (fst (resolve_model_path os cfg w (PurePath.of_str s))))
      eqn:Hex.
    + rewrite (run_localscore_spawns_once os cfg w s exe Hfind Hex). simpl. lia.
    + rewrite (run_localscore_missing_model os cfg w s exe Hfind Hex).
      cbn [snd spawned not_found_header]. rewrite spawned_app, spawned_looked_for.
      simpl. lia.
  - rewrite (run_localscore_no_executable os cfg w s Hfind). simpl. lia.
Qed.

(** X1.  Whatever the arguments and whatever the world does, one run of
    [main] hands at most one command to the shell. *)
Theorem main_spawns_at_most_once (args : Args) (w : W) :
  (length (spawned (snd (main os cfg args w))) <= 1)%nat.
Proof.
  revert w. change (spawns_at_most_once (main os cfg args)).
  unfold main. destruct (args_help args).
  - apply spawns_at_most_once_of_never. no_spawn.
  - apply spawns_at_most_once_bind.
    + apply (fetch_binary_step_never_spawns os cfg args).
    + intros _. apply spawns_at_most_once_bind.
      * destruct (args_download_model args); [| no_spawn].
        apply never_spawns_bind;
          [apply download_model_from_hf_never_spawns | intro; no_spawn].
      * intros [code | [model_path |]].
        -- apply spawns_at_most_once_of_never. no_spawn.
        -- destruct (String.eqb model_path "").
           ++ apply spawns_at_most_once_of_never.
              apply never_spawns_bind; [intro; reflexivity | intro; no_spawn].
           ++ apply run_localscore_spawns_at_most_once.
        -- apply spawns_at_most_once_of_never.
           apply never_spawns_bind; [intro; reflexivity | intro; no_spawn].
Qed.

(** X2.  When neither download flag is given, a run of [main] only prints,
    shows the parser's help or starts the executable: it makes no network
    request and writes nothing to the file system. *)
Theorem main_without_download_flags_stays_local (args : Args) (w : W) :
  args_download_localscore args = false ->
  args_download_model args = false ->
  Forall is_local_event (snd (main os cfg args w)) /\
  filter is_network (snd (main os cfg args w)) = [] /\
  filter is_fs_write (snd (main os cfg args w)) = [].
Proof.
  intros Hbin Hmodel.
  assert (Hall : trace_all is_local_event (main os cfg args)).
  { unfold main. rewrite Hbin, Hmodel.
    destruct (args_help args); [trace_all_tac |].
    apply trace_all_bind; [trace_all_tac | intro].
    apply trace_all_bind; [trace_all_tac | intros [code | [model_path |]]].
    - trace_all_tac.
    - destruct (String.eqb model_path ""); [trace_all_tac |].
      apply run_localscore_trace_local.
    - trace_all_tac. }
  split; [apply Hall | apply local_events_offline, Hall].
Qed.

End WholeRun.

(** ** How a run of the executable ends *)

Section RunEnds.

Context {W : Type} (os : OS W) (cfg : Config).

(** X3.  When the executable is located and the model is found, and the
    child ends with exit status [n]: [run_localscore] announces the command,
    starts exactly that command, prints the child's lines in the order they
    arrived and returns [n]; for a non-zero [n] one more line reports the
    error. *)
Theorem run_localscore_relays_and_forwards
        (w w' : W) (s : string) (exe : Path)
        (lines : list string) (n : Z) (detail : string) :
  find_localscore os w = Some exe ->
  exists_ os w (fst (resolve_model_path os cfg w (PurePath.of_str s))) = true ->
  sh_c os (command_line os cfg w exe s) w = ((lines, Exited n detail), w') ->
  run_localscore os cfg s w =
  (Ret n, w',
   Stdout ("Running: " ++ command_line os cfg w exe s ++ Py.nl) ::
   Spawn (command_line os cfg w exe s) ::
   map Stdout lines ++
   (if Z.eqb n 0 then []
    else [Stdout ("Error running localscore: " ++ detail ++ Py.nl)]))%list.
Proof.
  intros Hfind Hex Hsh.
  rewrite (run_localscore_runs os cfg w w' s exe lines _ Hfind Hex Hsh).
  destruct n; reflexivity.
Qed.

(** X4.  When the execution layer itself fails with an exception that is
    not an exit status (the shell cannot be started, say), [run_localscore]
    prints [Error: <detail>] after whatever lines had arrived and returns
    1; it does not raise. *)
Theorem run_localscore_fault_returns_1
        (w w' : W) (s : string) (exe : Path) (lines : list string) (m : string) :
  find_localscore os w = Some exe ->
  exists_ os w (fst (resolve_model_path os cfg w (PurePath.of_str s))) = true ->
  sh_c os (command_line os cfg w exe s) w = ((lines, Faulted (Exception m)), w') ->
  run_localscore os cfg s w =
  (Ret 1, w',
   Stdout ("Running: " ++ command_line os cfg w exe s ++ Py.nl) ::
   Spawn (command_line os cfg w exe s) ::
   map Stdout lines ++ [Stdout ("Error: " ++ m ++ Py.nl)])%list.
Proof.
  intros Hfind Hex Hsh.
  rewrite (run_localscore_runs os cfg w w' s exe lines _ Hfind Hex Hsh).
  reflexivity.
Qed.

(** X5.  An interrupt while the child runs is caught by neither handler of
    [run_localscore]: it leaves [main], the entry point prints a farewell
    after the lines that had arrived, and the process ends with status 0. *)
Theorem script_interrupted_says_bye
        (args : Args) (s : string) (w w' : W) (exe : Path) (lines : list string) :
  args_help args = false ->
  args_download_localscore args = false ->
  args_download_model args = false ->
  args_model_path args = Some s ->
  s <> "" ->
  find_localscore os w = Some exe ->
  exists_ os w (fst (resolve_model_path os cfg w (PurePath.of_str s))) = true ->
  sh_c os (command_line os cfg w exe s) w = ((lines, Faulted KeyboardInterrupt), w') ->
  fst (fst (main os cfg args w)) = Raise KeyboardInterrupt /\
  script os cfg args w =
  (0, w',
   Stdout ("Running: " ++ command_line os cfg w exe s ++ Py.nl) ::
   Spawn (command_line os cfg w exe s) ::
   map Stdout lines ++ [Stdout (Py.nl ++ "Bye!" ++ Py.nl)])%list.
Proof.
  intros Hhelp Hbin Hmodel Hpath Hs Hfind Hex Hsh.
  unfold script.
  rewrite (main_runs os cfg args s w Hhelp Hbin Hmodel Hpath Hs).
  rewrite (run_localscore_runs os cfg w w' s exe lines _ Hfind Hex Hsh).
  cbn [after_child fst snd]. rewrite app_nil_r. split; reflexivity.
Qed.

End RunEnds.

Lemma run_localscore_relays_and_forwards_witness :
  run_localscore Demo.os Demo.cfg "llama.gguf" Demo.w0 =
  (Ret 3, Demo.w0,
   [Stdout ("Running: localscore -m /home/u/proj/models/llama.gguf" ++ Py.nl);
    Spawn "localscore -m /home/u/proj/models/llama.gguf";
    Stdout ("loading model" ++ Py.nl);
    Stdout ("failed" ++ Py.nl);
    Stdout ("Error running localscore: RAN: /bin/sh -c ... exit code: 3" ++ Py.nl)]).
Proof.
  exact (run_localscore_relays_and_forwards
           Demo.os Demo.cfg Demo.w0 Demo.w0 "llama.gguf"
           (mkPath "/" ["opt"; "bin"; "localscore"])
           ["loading model" ++ Py.nl; "failed" ++ Py.nl] 3
           "RAN: /bin/sh -c ... exit code: 3" eq_refl eq_refl eq_refl).
Defined.

Lemma run_localscore_fault_returns_1_witness :
  run_localscore Demo.os Demo.cfg "here.gguf" Scenario.w_no_shell =
  (Ret 1, Scenario.w_no_shell,
   [Stdout ("Running: localscore -m /home/u/proj/here.gguf" ++ Py.nl);
    Spawn "localscore -m /home/u/proj/here.gguf";
    Stdout ("Error: [Errno 2] No such file or directory" ++ Py.nl)]).
Proof.
  exact (run_localscore_fault_returns_1
           Demo.os Demo.cfg Scenario.w_no_shell Scenario.w_no_shell "here.gguf"
           (mkPath "/" ["opt"; "bin"; "localscore"]) []
           "[Errno 2] No such file or directory" eq_refl eq_refl eq_refl).
Defined.

Lemma script_interrupted_says_bye_witness :
  script Demo.os Demo.cfg (Demo.args_of (Some "llama.gguf")) Scenario.w_interrupted =
  (0, Scenario.w_interrupted,
   [Stdout ("Running: localscore -m /home/u/proj/models/llama.gguf" ++ Py.nl);
    Spawn "localscore -m /home/u/proj/models/llama.gguf";
    Stdout ("loading model" ++ Py.nl);
    Stdout (Py.nl ++ "Bye!" ++ Py.nl)]).
Proof.
  refine (proj2 (script_interrupted_says_bye
                   Demo.os Demo.cfg (Demo.args_of (Some "llama.gguf")) "llama.gguf"
                   Scenario.w_interrupted Scenario.w_interrupted
                   (mkPath "/" ["opt"; "bin"; "localscore"])
                   ["loading model" ++ Py.nl]
                   eq_refl eq_refl eq_refl eq_refl _ eq_refl eq_refl eq_refl)).
  discriminate.
Defined.

(** ** Downloading the executable *)

Lemma string_app_assoc (a b c : string) : ((a ++ b) ++ c = a ++ b ++ c)%string.
Proof. induction a as [| x a IH]; simpl; [reflexivity | now rewrite IH]. Qed.

Section BinaryDownload.

Context {W : Type} (os : OS W) (cfg : Config).

(** What [download_localscore] does first unless it skips. *)
Lemma download_localscore_starts (force : bool) (w : W) :
  force = true \/ find_localscore os w = None ->
  download_localscore os cfg force w =
  prepend [Stdout ("Downloading localscore " ++ LOCALSCORE_VERSION cfg ++ "..." ++ Py.nl)]
    ((response <- perform (HttpGet (LOCALSCORE_URL cfg))
                          (httpx_get os (LOCALSCORE_URL cfg)) ;;
      (if is_success response then ret tt
       else raise (Exception (status_error response))) ;;;
      let temp_filename := "localscore-" ++ LOCALSCORE_VERSION cfg in
      perform (FileWrite temp_filename)
              (open_write os temp_filename (content response)) ;;;
      st_mode <- call (os_stat_mode os temp_filename) ;;
      perform (Chmod temp_filename (Z.lor st_mode S_IEXEC))
              (os_chmod os temp_filename (Z.lor st_mode S_IEXEC)) ;;;
      bin_exists <- ask (fun w => exists_ os w (PurePath.of_str LOCALSCORE_BIN)) ;;
      (if bin_exists then perform (Remove LOCALSCORE_BIN) (os_remove os LOCALSCORE_BIN)
       else ret tt) ;;;
      perform (Rename temp_filename LOCALSCORE_BIN)
              (os_rename os temp_filename LOCALSCORE_BIN) ;;;
      print ("Downloaded and made executable: " ++ LOCALSCORE_BIN)) w).
Proof.
  intros H. unfold download_localscore. rewrite bind_ask.
  assert (Hskip : negb force && is_some (find_localscore os w) = false).
  { destruct H as [-> | ->]; [reflexivity | apply andb_false_r]. }
  rewrite Hskip. rewrite bind_print.
  rewrite !string_app_assoc. reflexivity.
Qed.

(** X6.  With [--force], or when the executable cannot be located, the
    download is attempted; if the request fails or the server answers with
    an error status, [download_localscore] raises after the request and
    nothing has been written, and a run with [--download-localscore] ends
    with [Error: <detail>] and status 1 without fetching a model or starting
    a process. *)
Theorem failed_binary_download_writes_nothing
        (args : Args) (w w1 : W) (r : outcome Response) (m : string) :
  args_help args = false ->
  args_download_localscore args = true ->
  args_force args = true \/ find_localscore os w = None ->
  httpx_get os (LOCALSCORE_URL cfg) w = (r, w1) ->
  match r with
  | Ret response => is_success response = false /\ status_error response = m
  | Raise e => e = Exception m
  end ->
  download_localscore os cfg (args_force args) w =
  (Raise (Exception m), w1,
   [Stdout ("Downloading localscore " ++ LOCALSCORE_VERSION cfg ++ "..." ++ Py.nl);
    HttpGet (LOCALSCORE_URL cfg)]) /\
  script os cfg args w =
  (1, w1,
   [Stdout ("Downloading localscore " ++ LOCALSCORE_VERSION cfg ++ "..." ++ Py.nl);
    HttpGet (LOCALSCORE_URL cfg);
    Stdout ("Error: " ++ m ++ Py.nl)]).
Proof.
  intros Hhelp Hflag Hgo Hget Hfail.
  assert (Hdl : download_localscore os cfg (args_force args) w =
                (Raise (Exception m), w1,
                 [Stdout ("Downloading localscore " ++ LOCALSCORE_VERSION cfg ++ "..." ++ Py.nl);
                  HttpGet (LOCALSCORE_URL cfg)])).
  { rewrite (download_localscore_starts (args_force args) w Hgo).
    unfold bind at 1, perform at 1. rewrite Hget.
    destruct r as [response | e].
    - destruct Hfail as [Hbad <-]. unfold bind at 1. rewrite Hbad. reflexivity.
    - subst e. reflexivity. }
  split; [exact Hdl |].
  unfold script, main. rewrite Hhelp, Hflag. unfold bind at 1. rewrite Hdl.
  reflexivity.
Qed.

(** X7.  When every step succeeds, a download that is not skipped does, in
    this order: announce, fetch the versioned URL, write the body to
    [localscore-<version>], set that file's mode to its old mode with the
    owner-execute bit added, remove an existing [localscore] if there is
    one, rename the new file to [localscore], and report.  The mode handed
    to [chmod] has the owner-execute bit and every bit the file had. *)
Theorem download_localscore_installs
        (force : bool) (w w1 w2 w3 w4 w5 w6 : W) (response : Response) (mode : Z) :
  force = true \/ find_localscore os w = None ->
  httpx_get os (LOCALSCORE_URL cfg) w = (Ret response, w1) ->
  is_success response = true ->
  open_write os ("localscore-" ++ LOCALSCORE_VERSION cfg) (content response) w1 =
  (Ret tt, w2) ->
  os_stat_mode os ("localscore-" ++ LOCALSCORE_VERSION cfg) w2 = (Ret mode, w3) ->
  os_chmod os ("localscore-" ++ LOCALSCORE_VERSION cfg) (Z.lor mode S_IEXEC) w3 =
  (Ret tt, w4) ->
  (if exists_ os w4 (PurePath.of_str LOCALSCORE_BIN)
   then os_remove os LOCALSCORE_BIN w4 else (Ret tt, w4)) = (Ret tt, w5) ->
  os_rename os ("localscore-" ++ LOCALSCORE_VERSION cfg) LOCALSCORE_BIN w5 =
  (Ret tt, w6) ->
  download_localscore os cfg force w =
  (Ret tt, w6,
   [Stdout ("Downloading localscore " ++ LOCALSCORE_VERSION cfg ++ "..." ++ Py.nl);
    HttpGet (LOCALSCORE_URL cfg);
    FileWrite ("localscore-" ++ LOCALSCORE_VERSION cfg);
    Chmod ("localscore-" ++ LOCALSCORE_VERSION cfg) (Z.lor mode S_IEXEC)] ++
   (if exists_ os w4 (PurePath.of_str LOCALSCORE_BIN)
    then [Remove LOCALSCORE_BIN] else []) ++
   [Rename ("localscore-" ++ LOCALSCORE_VERSION cfg) LOCALSCORE_BIN;
    Stdout ("Downloaded and made executable: localscore" ++ Py.nl)])%list /\
  Z.testbit (Z.lor mode S_IEXEC) 6 = true /\
  (forall i, Z.testbit mode i = true -> Z.testbit (Z.lor mode S_IEXEC) i = true).
Proof.
  intros Hgo Hget Hok Hwrite Hstat Hchmod Hremove Hrename.
  split; [| split].
  - rewrite (download_localscore_starts force w Hgo).
    unfold bind at 1, perform at 1. rewrite Hget.
    unfold bind at 1. rewrite Hok. cbn [ret].
    unfold bind at 1, perform at 1. cbv zeta. rewrite Hwrite.
    unfold bind at 1, call at 1. rewrite Hstat.
    unfold bind at 1, perform at 1. rewrite Hchmod.
    rewrite bind_ask.
    unfold bind at 1.
    destruct (exists_ os w4 (PurePath.of_str LOCALSCORE_BIN)).
    + unfold perform at 1. rewrite Hremove.
      unfold bind at 1, perform at 1. rewrite Hrename. reflexivity.
    + cbn [ret]. injection Hremove as <-.
      unfold bind at 1, perform at 1. rewrite Hrename. reflexivity.
  - rewrite Z.lor_spec. apply orb_true_r.
  - intros i Hi. rewrite Z.lor_spec, Hi. reflexivity.
Qed.

End BinaryDownload.

Lemma failed_binary_download_writes_nothing_witness :
  script Demo.os Demo.cfg (mkArgs false (Some "llama.gguf") true true false)
         Scenario.w_404 =
  (1, Scenario.w_404,
   [Stdout ("Downloading localscore 0.9.3..." ++ Py.nl);
    HttpGet "https://blob.localscore.ai/localscore-0.9.3";
    Stdout ("Error: Client error '404 Not Found'" ++ Py.nl)]).
Proof.
  exact (proj2 (failed_binary_download_writes_nothing
                  Demo.os Demo.cfg (mkArgs false (Some "llama.gguf") true true false)
                  Scenario.w_404 Scenario.w_404
                  (Ret (mkResponse false "Client error '404 Not Found'" ""))
                  "Client error '404 Not Found'"
                  eq_refl eq_refl (or_intror eq_refl) eq_refl (conj eq_refl eq_refl))).
Defined.

Lemma download_localscore_installs_witness :
  snd (download_localscore Demo.os Demo.cfg false Demo.w_bare) =
  [Stdout ("Downloading localscore 0.9.3..." ++ Py.nl);
   HttpGet "https://blob.localscore.ai/localscore-0.9.3";
   FileWrite "localscore-0.9.3";
   Chmod "localscore-0.9.3" 484;
   Rename "localscore-0.9.3" "localscore";
   Stdout ("Downloaded and made executable: localscore" ++ Py.nl)] /\
  find_localscore Demo.os (snd (fst (download_localscore Demo.os Demo.cfg false Demo.w_bare))) =
  Some (mkPath "/" ["home"; "u"; "proj"; "localscore"]).
Proof.
  edestruct (download_localscore_installs Demo.os Demo.cfg false Demo.w_bare)
    as [Hrun _].
  - right. reflexivity.
  - cbv. reflexivity.
  - reflexivity.
  - cbv. reflexivity.
  - cbv. reflexivity.
  - cbv. reflexivity.
  - cbv. reflexivity.
  - cbv. reflexivity.
  - rewrite Hrun. split; reflexivity.
Defined.

(** ** Fetching a model *)

Lemma find_filter {A} (p q : A -> bool) (l : list A) :
  find q (filter p l) = find (fun x => p x && q x) l.
Proof.
  induction l as [| x l IH]; simpl; [reflexivity |].
  destruct (p x); simpl; [destruct (q x); auto | auto].
Qed.

Lemma head_filter {A} (p : A -> bool) (l : list A) :
  match filter p l with [] => None | x :: _ => Some x end = find p l.
Proof.
  induction l as [| x l IH]; simpl; [reflexivity |].
  destruct (p x); auto.
Qed.

Lemma preferred_gguf_none (files : list string) :
  preferred_gguf files = None <->
  (forall f, In f files -> Py.endswith ".gguf" f = false).
Proof.
  unfold preferred_gguf. split.
  - destruct (find (fun f => _ && _) files); [discriminate |].
    intros Hnone f Hin. exact (find_none _ _ Hnone f Hin).
  - intros Hall.
    destruct (find (fun f => _ && _) files) as [f |] eqn:Hq.
    + apply find_some in Hq as [Hin Hf]. rewrite (Hall f Hin) in Hf. discriminate.
    + destruct (find (Py.endswith ".gguf") files) as [f |] eqn:Hg; [| reflexivity].
      apply find_some in Hg as [Hin Hf]. rewrite (Hall f Hin) in Hf. discriminate.
Qed.

Lemma preferred_gguf_some (files : list string) (f : string) :
  preferred_gguf files = Some f ->
  In f files /\ Py.endswith ".gguf" f = true /\
  (forall g, In g files -> Py.endswith ".gguf" g = true ->
             Py.contains "q4" (Py.lower g) = true ->
             Py.contains "q4" (Py.lower f) = true).
Proof.
  unfold preferred_gguf.
  destruct (find (fun f => _ && _) files) as [f' |] eqn:Hq.
  - intros [= ->]. apply find_some in Hq as [Hin Hf].
    apply andb_true_iff in Hf as [Hg Hq4]. auto.
  - intros Hg. apply find_some in Hg as [Hin Hf]. repeat split; auto.
    intros g Hgin Hgg Hgq. pose proof (find_none _ _ Hq g Hgin) as Hno.
    simpl in Hno. rewrite Hgg, Hgq in Hno. discriminate.
Qed.

(** [preferred_gguf] the way the script computes it. *)
Lemma preferred_gguf_by_filter (files : list string) :
  preferred_gguf files =
  match filter (Py.endswith ".gguf") files with
  | [] => None
  | first :: _ =>
      Some match find (fun f => Py.contains "q4" (Py.lower f))
                      (filter (Py.endswith ".gguf") files) with
           | Some f => f
           | None => first
           end
  end.
Proof.
  unfold preferred_gguf.
  pose proof (find_filter (Py.endswith ".gguf")
                          (fun f => Py.contains "q4" (Py.lower f)) files) as Hq.
  pose proof (head_filter (Py.endswith ".gguf") files) as Hg.
  cbv beta in Hq. rewrite <- Hq, <- Hg.
  destruct (filter (Py.endswith ".gguf") files) as [| first rest]; [reflexivity |].
  destruct (find _ (first :: rest)); reflexivity.
Qed.

Section ModelFetch.

Context {W : Type} (os : OS W) (cfg : Config).

Lemma fst_prepend {A} (t : list event) (x : outcome A * W * list event) :
  fst (prepend t x) = fst x.
Proof. destruct x as [[r w] t']. reflexivity. Qed.

Lemma hd_bind_perform {A B} (ev : event) (f : W -> outcome A * W)
      (k : A -> M W B) (w : W) :
  hd_error (snd (bind (perform ev f) k w)) = Some ev.
Proof.
  unfold bind, perform. destruct (f w) as [[a | e] w1]; [| reflexivity].
  destruct (k a w1) as [[r w2] t2]. reflexivity.
Qed.

(** A handler that always returns leaves only what it does not handle. *)
Lemma try_except_escape {A} (m : M W A) (h : exn -> M W A) (w : W) (e : exn) :
  (forall e' w', exists a w'' t, h e' w' = (Ret a, w'', t)) ->
  fst (fst (try_except m is_Exception h w)) = Raise e ->
  e = KeyboardInterrupt.
Proof.
  intros Hh. unfold try_except.
  destruct (m w) as [[[a | e'] w1] t1]; simpl; [discriminate |].
  destruct (is_Exception e') eqn:He'.
  - destruct (Hh e' w1) as (a & w'' & t & ->). simpl. discriminate.
  - simpl. intros [= <-]. destruct e'; simpl in He'; congruence.
Qed.

(** [download_model_from_hf] once the model directory has been made. *)
Lemma download_model_from_hf_after_mkdir
      (repo_id filename : option string) (w w1 : W) :
  mkdir_parents os (MODEL_DIR cfg) w = (Ret tt, w1) ->
  exists body handler t0,
    (forall e' w', exists a w'' t, handler e' w' = (Ret a, w'', t)) /\
    download_model_from_hf os cfg repo_id filename w =
    prepend t0 (try_except body is_Exception handler w1).
Proof.
  intros Hmk. unfold download_model_from_hf.
  unfold bind at 1, perform at 1. rewrite Hmk. rewrite bind_print.
  match goal with
  | |- context [prepend ?t1 (try_except ?body is_Exception ?handler w1)] =>
      exists body, handler, ([Mkdir (MODEL_DIR cfg)] ++ t1)%list; split;
      [| destruct (try_except body is_Exception handler w1) as [[r w2] t2];
         reflexivity]
  end.
  intros e' w'. eexists _, _, _. reflexivity.
Qed.

(** X8.  Once [MODEL_DIR] has been created, no failure of the hub reaches
    the caller of [download_model_from_hf] as an exception: whatever
    [list_repo_files], [hf_hub_url] or [hf_hub_download] raise, short of an
    interrupt, the function returns. *)
Theorem download_model_from_hf_contains_hub_errors
        (repo_id filename : option string) (w w1 : W) (e : exn) :
  mkdir_parents os (MODEL_DIR cfg) w = (Ret tt, w1) ->
  fst (fst (download_model_from_hf os cfg repo_id filename w)) = Raise e ->
  e = KeyboardInterrupt.
Proof.
  intros Hmk.
  destruct (download_model_from_hf_after_mkdir repo_id filename w w1 Hmk)
    as (body & handler & t0 & Hh & ->).
  rewrite fst_prepend. apply try_except_escape. exact Hh.
Qed.

(** X9.  Creating [MODEL_DIR] happens before the [try]: when it fails, the
    exception leaves [download_model_from_hf] and [main] with nothing asked
    of the hub, "Failed to download model." is not printed, and the process
    ends with [Error: <detail>] and status 1. *)
Theorem model_dir_failure_is_fatal
        (args : Args) (w w1 w2 : W) (t1 : list event) (m : string) :
  args_help args = false ->
  args_download_model args = true ->
  fetch_binary_step os cfg args w = (Ret tt, w1, t1) ->
  mkdir_parents os (MODEL_DIR cfg) w1 = (Raise (Exception m), w2) ->
  download_model_from_hf os cfg None None w1 =
  (Raise (Exception m), w2, [Mkdir (MODEL_DIR cfg)]) /\
  script os cfg args w =
  (1, w2, (t1 ++ [Mkdir (MODEL_DIR cfg); Stdout ("Error: " ++ m ++ Py.nl)])%list).
Proof.
  intros Hhelp Hflag Hstep Hmk.
  assert (Hdl : download_model_from_hf os cfg None None w1 =
                (Raise (Exception m), w2, [Mkdir (MODEL_DIR cfg)])).
  { unfold download_model_from_hf. unfold bind at 1, perform at 1.
    rewrite Hmk. reflexivity. }
  split; [exact Hdl |].
  unfold script.
  rewrite (main_after_binary_step os cfg args w w1 t1 Hhelp Hstep), Hflag.
  unfold bind at 1. unfold bind at 1. rewrite Hdl.
  cbn -[String.append]. rewrite <- app_assoc. reflexivity.
Qed.

(** X10.  Every run of [download_model_from_hf] begins by creating
    [MODEL_DIR], and everything it does besides printing and listing the
    repository is aimed at that directory: a download always has
    [MODEL_DIR] as its target, and no file is written, renamed or removed
    by the script itself. *)
Theorem download_model_from_hf_stays_in_model_dir
        (repo_id filename : option string) (w : W) :
  hd_error (snd (download_model_from_hf os cfg repo_id filename w)) =
  Some (Mkdir (MODEL_DIR cfg)) /\
  Forall (downloads_into (MODEL_DIR cfg))
         (snd (download_model_from_hf os cfg repo_id filename w)).
Proof.
  split.
  - unfold download_model_from_hf. apply hd_bind_perform.
  - revert w.
    change (trace_all (downloads_into (MODEL_DIR cfg))
                      (download_model_from_hf os cfg repo_id filename)).
    unfold download_model_from_hf, choose_gguf. trace_all_tac.
Qed.

(** X11.  Without a file name, the fetcher lists the repository and picks
    [preferred_gguf]: a file of the listing that ends in [.gguf], one whose
    lower-cased name contains [q4] whenever the listing has such a [.gguf]
    file; it picks nothing exactly when no listed file ends in [.gguf]. *)
Theorem choose_gguf_picks_preferred
        (repo_id : string) (files : list string) (w w1 : W) :
  list_repo_files os repo_id w = (Ret files, w1) ->
  fst (choose_gguf os repo_id None w) = (Ret (preferred_gguf files), w1) /\
  (preferred_gguf files = None <->
   (forall f, In f files -> Py.endswith ".gguf" f = false)) /\
  (forall f, preferred_gguf files = Some f ->
     In f files /\ Py.endswith ".gguf" f = true /\
     (forall g, In g files -> Py.endswith ".gguf" g = true ->
                Py.contains "q4" (Py.lower g) = true ->
                Py.contains "q4" (Py.lower f) = true)).
Proof.
  intros Hlist. split; [| split].
  - rewrite preferred_gguf_by_filter.
    unfold choose_gguf. unfold bind at 1, perform at 1. rewrite Hlist.
    destruct (filter (Py.endswith ".gguf") files) as [| first rest]; reflexivity.
  - apply preferred_gguf_none.
  - apply preferred_gguf_some.
Qed.

End ModelFetch.

Lemma download_model_from_hf_contains_hub_errors_witness :
  fst (fst (download_model_from_hf Demo.os Demo.cfg None None
                                   Scenario.w_hub_interrupted)) =
  Raise KeyboardInterrupt /\
  KeyboardInterrupt = KeyboardInterrupt.
Proof.
  split; [reflexivity |].
  exact (download_model_from_hf_contains_hub_errors
           Demo.os Demo.cfg None None Scenario.w_hub_interrupted
           (snd (mkdir_parents Demo.os (MODEL_DIR Demo.cfg) Scenario.w_hub_interrupted))
           KeyboardInterrupt eq_refl eq_refl).
Defined.

Lemma model_dir_failure_is_fatal_witness :
  script Scenario.os_read_only Demo.cfg (mkArgs false None false true false) Demo.w0 =
  (1, Demo.w0,
   [Mkdir (MODEL_DIR Demo.cfg);
    Stdout ("Error: [Errno 30] Read-only file system" ++ Py.nl)]).
Proof.
  exact (proj2 (model_dir_failure_is_fatal
                  Scenario.os_read_only Demo.cfg (mkArgs false None false true false)
                  Demo.w0 Demo.w0 Demo.w0 [] "[Errno 30] Read-only file system"
                  eq_refl eq_refl eq_refl eq_refl)).
Defined.

Lemma choose_gguf_picks_preferred_witness :
  fst (choose_gguf Demo.os "TheBloke/Llama-2-7B-Chat-GGUF" None Demo.w0) =
  (Ret (Some "llama.Q4_K_M.gguf"), Demo.w0).
Proof.
  exact (proj1 (choose_gguf_picks_preferred
                  Demo.os "TheBloke/Llama-2-7B-Chat-GGUF"
                  ["README.md"; "llama.Q8_0.gguf"; "llama.Q4_K_M.gguf"]
                  Demo.w0 Demo.w0 eq_refl)).
Defined.

(** ** Strings to paths and back *)

Section SplitFacts.

Variable sep : ascii.

Lemma split_nonempty (s : string) : Py.split sep s <> [].
Proof.
  destruct s as [| c s]; simpl; [discriminate |].
  destruct (Ascii.eqb c sep); [discriminate |].
  destruct (Py.split sep s); discriminate.
Qed.

Lemma split_free (x : string) : free_of_sep sep x -> Py.split sep x = [x].
Proof.
  unfold free_of_sep. induction x as [| c x IH]; simpl; [reflexivity |].
  intros Hfree. destruct (Ascii.eqb_spec c sep) as [-> | Hne].
  - exfalso. apply Hfree. now left.
  - rewrite IH; [reflexivity | intros Hin; apply Hfree; now right].
Qed.

Lemma split_app_sep (x y : string) :
  free_of_sep sep x -> Py.split sep (x ++ String sep y) = x :: Py.split sep y.
Proof.
  unfold free_of_sep. induction x as [| c x IH]; simpl.
  - intros _. now rewrite Ascii.eqb_refl.
  - intros Hfree. destruct (Ascii.eqb_spec c sep) as [-> | Hne].
    + exfalso. apply Hfree. now left.
    + rewrite IH; [reflexivity | intros Hin; apply Hfree; now right].
Qed.

Lemma split_concat (ps : list string) :
  ps <> [] -> Forall (free_of_sep sep) ps ->
  Py.split sep (String.concat (String sep "") ps) = ps.
Proof.
  induction ps as [| p ps IH]; [congruence |].
  intros _ Hall. inversion Hall as [| ? ? Hp Hps]; subst.
  destruct ps as [| q ps].
  - simpl. now apply split_free.
  - change (String.concat (String sep "") (p :: q :: ps))
      with (p ++ String sep (String.concat (String sep "") (q :: ps)))%string.
    rewrite split_app_sep by assumption. f_equal. apply IH; [discriminate | assumption].
Qed.

Lemma split_parts_free (s : string) : Forall (free_of_sep sep) (Py.split sep s).
Proof.
  induction s as [| c s IH]; simpl.
  - constructor; [intros [] | constructor].
  - destruct (Ascii.eqb_spec c sep) as [-> | Hne].
    + constructor; [intros [] | exact IH].
    + destruct (Py.split sep s) as [| h t]; [repeat constructor; intros [H | []]; congruence |].
      inversion IH as [| ? ? Hh Ht]; subst. constructor; [| exact Ht].
      intros [H | H]; [congruence | now apply Hh].
Qed.

Lemma concat_split (s : string) :
  String.concat (String sep "") (Py.split sep s) = s.
Proof.
  induction s as [| c s IH]; simpl; [reflexivity |].
  pose proof (split_nonempty s) as Hne.
  destruct (Ascii.eqb c sep) eqn:Hc.
  - apply Ascii.eqb_eq in Hc. subst c.
    destruct (Py.split sep s) as [| h t]; [congruence |].
    change (String.concat (String sep "") ("" :: h :: t))
      with (String sep (String.concat (String sep "") (h :: t))).
    now rewrite IH.
  - destruct (Py.split sep s) as [| h t]; [congruence |].
    destruct t as [| h' t]; simpl in *; now rewrite <- IH.
Qed.

End SplitFacts.

Lemma parse_root_cases (s : string) :
  PurePath.parse_root s = "" \/ PurePath.parse_root s = "/" \/
  PurePath.parse_root s = "//".
Proof.
  unfold PurePath.parse_root.
  destruct (PurePath.leading_slashes s) as [| [| [| n]]]; auto.
Qed.

Lemma filter_components (ps : list string) :
  Forall (fun x => PurePath.is_component x = true) ps ->
  filter PurePath.is_component ps = ps.
Proof.
  induction 1 as [| x ps Hx _ IH]; simpl; [reflexivity |].
  now rewrite Hx, IH.
Qed.

(** [Path(str(p)) == p] for a path with a proper root and proper
    components. *)
Lemma of_str_str (r : string) (ps : list string) :
  r = "" \/ r = "/" \/ r = "//" ->
  Forall (fun x => PurePath.is_component x = true) ps ->
  Forall (free_of_sep "/"%char) ps ->
  PurePath.of_str (PurePath.str (mkPath r ps)) = mkPath r ps /\
  PurePath.str (mkPath r ps) <> "".
Proof.
  intros Hr Hcomp Hfree.
  destruct ps as [| p ps].
  - destruct Hr as [-> | [-> | ->]]; split; (reflexivity || discriminate).
  - assert (Hsplit : Py.split "/"%char (String.concat "/" (p :: ps)) = p :: ps)
      by (apply split_concat; [discriminate | assumption]).
    assert (Hhead : exists a tl, String.concat "/" (p :: ps) = String a tl /\ a <> "/"%char).
    { inversion Hcomp as [| ? ? Hp _]; inversion Hfree as [| ? ? Hfp _]; subst.
      destruct p as [| a p]; [discriminate Hp |].
      exists a. destruct ps; simpl; eexists; (split; [reflexivity |]);
        intros ->; apply Hfp; now left. }
    destruct Hhead as (a & tl & Hc & Ha).
    unfold PurePath.str, PurePath.of_str. cbn [parts root].
    assert (Hlead : PurePath.leading_slashes (String a tl) = O).
    { simpl. destruct a as [[] [] [] [] [] [] [] []]; try reflexivity.
      now elim Ha. }
    destruct Hr as [-> | [-> | ->]]; split;
      try (rewrite Hc; simpl; discriminate).
    + cbn [String.append]. rewrite Hsplit. unfold PurePath.parse_root.
      rewrite Hc, Hlead. f_equal; exact (filter_components _ Hcomp).
    + cbn [String.append]. unfold PurePath.parse_root.
      cbn [PurePath.leading_slashes]. rewrite Hc, Hlead, <- Hc.
      cbn [Py.split]. rewrite Ascii.eqb_refl. rewrite Hsplit.
      cbn [filter PurePath.is_component String.eqb negb andb].
      f_equal; exact (filter_components _ Hcomp).
    + cbn [String.append]. unfold PurePath.parse_root.
      cbn [PurePath.leading_slashes]. rewrite Hc, Hlead, <- Hc.
      cbn [Py.split]. rewrite !Ascii.eqb_refl. rewrite Hsplit.
      cbn [filter PurePath.is_component String.eqb negb andb].
      f_equal; exact (filter_components _ Hcomp).
Qed.

Lemma parsed_round_trip (p : Path) :
  parsed p ->
  PurePath.of_str (PurePath.str p) = p /\ PurePath.str p <> "".
Proof.
  intros [s ->]. unfold PurePath.of_str at 2 3.
  apply of_str_str.
  - apply parse_root_cases.
  - apply Forall_forall. intros x Hin. apply filter_In in Hin. tauto.
  - pose proof (split_parts_free "/"%char s) as Hall.
    rewrite Forall_forall in Hall |- *. intros x Hin.
    apply filter_In in Hin. apply Hall. tauto.
Qed.

Section Returns.

Context {W : Type}.

Lemma returns_all_ret {A} (Q : A -> Prop) (a : A) :
  Q a -> returns_all Q (@ret W A a).
Proof. intros H w a' w' t [= <- _ _]. exact H. Qed.

Lemma returns_all_bind {A B} (Q : B -> Prop) (m : M W A) (f : A -> M W B) :
  (forall a, returns_all Q (f a)) -> returns_all Q (bind m f).
Proof.
  intros Hf w b w' t. unfold bind.
  destruct (m w) as [[[a | e] w1] t1]; [| discriminate].
  destruct (f a w1) as [[r w2] t2] eqn:Hfa. intros [= -> _ _].
  exact (Hf a w1 b w2 t2 Hfa).
Qed.

Lemma returns_all_try_except {A} (Q : A -> Prop) (m : M W A)
      (handles : exn -> bool) (h : exn -> M W A) :
  returns_all Q m -> (forall e, returns_all Q (h e)) ->
  returns_all Q (try_except m handles h).
Proof.
  intros Hm Hh w a w' t. unfold try_except.
  destruct (m w) as [[[a' | e] w1] t1] eqn:Hmw.
  - intros [= <- _ _]. exact (Hm w a' w1 t1 Hmw).
  - destruct (handles e); [| discriminate].
    destruct (h e w1) as [[r w2] t2] eqn:Hhe. intros [= -> _ _].
    exact (Hh e w1 a w2 t2 Hhe).
Qed.

End Returns.

Ltac returns_tac :=
  repeat first
    [ apply returns_all_try_except; [| intro]
    | apply returns_all_bind; intro
    | apply returns_all_ret
    | match goal with
      | |- returns_all _ (match ?x with _ => _ end) => destruct x
      end ].

(** ** From the fetcher to the runner, and the search path *)

Section Handoff.

Context {W : Type} (os : OS W) (cfg : Config).

Lemma download_model_from_hf_returns_parsed (repo_id filename : option string) :
  returns_all (fun o => match o with Some p => parsed p | None => True end)
              (download_model_from_hf os cfg repo_id filename).
Proof.
  unfold download_model_from_hf. returns_tac;
    solve [exact I | eexists; reflexivity].
Qed.

(** X12.  After a successful fetch, [main] goes on to [run_localscore] with
    the positional model path when one was given, and otherwise with the
    fetched path written as a string; that string is not empty and parses
    back to the very path the fetcher returned, so nothing is lost on the
    way from [main] to [run_localscore]. *)
Theorem main_hands_model_to_runner
        (args : Args) (w w1 w2 : W) (t1 t2 : list event) (fetched : Path) :
  args_help args = false ->
  args_download_model args = true ->
  fetch_binary_step os cfg args w = (Ret tt, w1, t1) ->
  download_model_from_hf os cfg None None w1 = (Ret (Some fetched), w2, t2) ->
  main os cfg args w =
  prepend (t1 ++ t2)
    (run_localscore os cfg
       (match args_model_path args with
        | Some s => if String.eqb s "" then PurePath.str fetched else s
        | None => PurePath.str fetched
        end) w2) /\
  PurePath.of_str (PurePath.str fetched) = fetched /\
  PurePath.str fetched <> "".
Proof.
  intros Hhelp Hflag Hstep Hfetch.
  assert (Hparsed : parsed fetched)
    by exact (download_model_from_hf_returns_parsed None None w1 _ w2 t2 Hfetch).
  destruct (parsed_round_trip fetched Hparsed) as [Hround Hne].
  split; [| split; assumption].
  rewrite (main_after_binary_step os cfg args w w1 t1 Hhelp Hstep), Hflag.
  unfold bind at 1. unfold bind at 1. rewrite Hfetch.
  apply String.eqb_neq in Hne.
  destruct (args_model_path args) as [s |]; cbn [truthy negb].
  - destruct (String.eqb s "") eqn:Hs; cbn [negb ret]; rewrite ?Hne, ?Hs;
      destruct (run_localscore os cfg _ w2) as [[r w3] t3];
      cbn [prepend]; rewrite ?app_nil_r, ?app_assoc; reflexivity.
  - cbn [ret]. rewrite Hne.
    destruct (run_localscore os cfg _ w2) as [[r w3] t3];
      cbn [prepend]; rewrite ?app_nil_r, ?app_assoc; reflexivity.
Qed.

(** X13.  The entries of the search path are the pieces of [PATH] between
    colons, all of them and in order: joining them with colons gives [PATH]
    back (the empty string when [PATH] is unset), so empty and repeated
    entries are kept, there is always at least one entry, and no entry
    contains a colon. *)
Theorem path_entries_partition_PATH (w : W) :
  String.concat ":" (path_entries os w) =
  match environ_get os w "PATH" with Some s => s | None => "" end /\
  path_entries os w <> [] /\
  Forall (free_of_sep ":"%char) (path_entries os w).
Proof.
  unfold path_entries. split; [| split].
  - apply concat_split.
  - apply split_nonempty.
  - apply split_parts_free.
Qed.

(** X14.  With [PATH] unset or empty the locator still examines one search
    directory, the one the empty string names, which [pathlib] reads as
    ["."]; only when that directory does not qualify does it go on to its
    own check of the working directory. *)
Theorem find_localscore_without_PATH (w : W) :
  environ_get os w "PATH" = None \/ environ_get os w "PATH" = Some "" ->
  path_entries os w = [""] /\
  PurePath.str (PurePath.of_str "") = "." /\
  find_localscore os w =
  if dir_matches os w ""
  then Some (entry_dir os w "" // LOCALSCORE_BIN)
  else if is_executable_file os w (getcwd os w // LOCALSCORE_BIN)
       then Some (resolve os w (getcwd os w // LOCALSCORE_BIN))
       else None.
Proof.
  intros Hpath.
  assert (Hentries : path_entries os w = [""])
    by (unfold path_entries; destruct Hpath as [-> | ->]; reflexivity).
  split; [exact Hentries |]. split; [reflexivity |].
  unfold find_localscore. rewrite Hentries, scan_path_dirs_cons.
  destruct (dir_matches os w ""); reflexivity.
Qed.

(** X15.  Whatever the path and the file system, the resolution phase
    returns the canonical form of the path itself or of the path joined
    under [MODEL_DIR].  The tried-list is empty, for an absolute path or
    one that exists as written, or it holds exactly the two canonical
    candidates in order, and then the returned path is one of them: a path
    is never used that the diagnostic would not list. *)
Theorem resolve_model_path_shape (w : W) (p : Path) :
  (resolve_model_path os cfg w p = (resolve os w p, []) /\
   (PurePath.is_absolute p = true \/ exists_ os w p = true))
  \/
  (snd (resolve_model_path os cfg w p) =
   [resolve os w p; resolve os w (MODEL_DIR cfg /// p)] /\
   In (fst (resolve_model_path os cfg w p)) (snd (resolve_model_path os cfg w p)) /\
   PurePath.is_absolute p = false /\ exists_ os w p = false).
Proof.
  destruct (PurePath.is_absolute p) eqn:Habs.
  - left. split; [| auto]. apply resolve_model_path_direct. auto.
  - destruct (exists_ os w p) eqn:Hex.
    + left. split; [| auto]. apply resolve_model_path_direct. auto.
    + right. rewrite (resolve_model_path_fallback os cfg w p Habs Hex). cbn [fst snd].
      destruct (exists_ os w (MODEL_DIR cfg /// p)); repeat split; simpl; auto.
Qed.

End Handoff.

Lemma main_hands_model_to_runner_witness :
  spawned (snd (main Demo.os Demo.cfg (mkArgs false None false true false) Demo.w0)) =
  ["localscore -m /home/u/proj/models/llama.Q4_K_M.gguf"] /\
  spawned (snd (main Demo.os Demo.cfg (mkArgs false (Some "here.gguf") false true false)
                     Demo.w0)) =
  ["localscore -m /home/u/proj/here.gguf"].
Proof.
  split.
  - edestruct (main_hands_model_to_runner
                 Demo.os Demo.cfg (mkArgs false None false true false) Demo.w0)
      as [Hmain _]; [reflexivity | reflexivity | reflexivity | cbv; reflexivity |].
    rewrite Hmain. reflexivity.
  - edestruct (main_hands_model_to_runner
                 Demo.os Demo.cfg (mkArgs false (Some "here.gguf") false true false)
                 Demo.w0)
      as [Hmain _]; [reflexivity | reflexivity | reflexivity | cbv; reflexivity |].
    rewrite Hmain. reflexivity.
Defined.

Lemma find_localscore_without_PATH_witness :
  find_localscore Demo.os Scenario.w_no_PATH =
  Some (mkPath "/" ["home"; "u"; "proj"; "localscore"]).
Proof.
  destruct (find_localscore_without_PATH Demo.os Scenario.w_no_PATH (or_introl eq_refl))
    as (_ & _ & Hfind).
  rewrite Hfind. reflexivity.
Defined.

Lemma main_without_download_flags_stays_local_witness :
  filter is_network
         (snd (main Demo.os Demo.cfg (Demo.args_of (Some "llama.gguf")) Demo.w0)) = [] /\
  filter is_fs_write
         (snd (main Demo.os Demo.cfg (Demo.args_of (Some "llama.gguf")) Demo.w0)) = [].
Proof.
  exact (proj2 (main_without_download_flags_stays_local
                  Demo.os Demo.cfg (Demo.args_of (Some "llama.gguf")) Demo.w0
                  eq_refl eq_refl)).
Defined.

(** * The locator and the runner with exceptions *)

Section RaisingFacts.

Context {W : Type} (os : OS W) (flt : Faults W) (cfg : Config).


(** One step of the scan. *)
Lemma raising_scan_cons (w : W) (d : string) (rest : list string) :
  Raising.scan_path_dirs os flt w (d :: rest) =
  match entry_fault os flt w d with
  | Some e => Raise e
  | None =>
      if holds_executable os w (entry_dir os w d)
      then Ret (Some (PurePath.joinpath (entry_dir os w d) (mkPath "" ["localscore"])))
      else Raising.scan_path_dirs os flt w rest
  end.
Proof.
  unfold entry_fault, holds_executable, entry_dir. cbn [Raising.scan_path_dirs].
  unfold Raising.guard.
  destruct (flt w (Expanduser _)); [reflexivity |].
  destruct (flt w (Resolve _)); [reflexivity |].
  destruct (flt w (Stat (resolve os w _))); [reflexivity |].
  destruct (exists_ os w (resolve os w _) && is_dir os w (resolve os w _));
    [| reflexivity].
  change (resolve os w (expanduser os w (PurePath.of_str d)) // LOCALSCORE_BIN)
    with (PurePath.joinpath (resolve os w (expanduser os w (PurePath.of_str d)))
                            (mkPath "" ["localscore"])).
  destruct (flt w (Stat _)); [reflexivity |].
  cbn [andb]. reflexivity.
Qed.

(** Entries that answer and do not qualify are passed over. *)
Lemma raising_scan_prefix (w : W) (pre rest : list string) :
  (forall x, In x pre ->
             entry_fault os flt w x = None /\
             holds_executable os w (entry_dir os w x) = false) ->
  Raising.scan_path_dirs os flt w (pre ++ rest) =
  Raising.scan_path_dirs os flt w rest.
Proof.
  induction pre as [| d pre IH]; intros Hpre; [reflexivity |].
  change ((d :: pre) ++ rest)%list with (d :: (pre ++ rest))%list.
  rewrite raising_scan_cons.
  destruct (Hpre d (or_introl eq_refl)) as [-> ->].
  apply IH. intros x Hin. apply Hpre. now right.
Qed.





End RaisingFacts.

Section RaisingClaims.

Context {W : Type} (os : OS W) (flt : Faults W) (cfg : Config).

(** C4, as amended.  Let the entries of [PATH] be [pre ++ rest], where every
    entry of [pre] answers all the locator's calls and names no existing
    directory holding a regular, execute-permitted [localscore] (among them
    the entries that do not exist or are not directories).  Then the entries
    of [pre] are passed over, and:
    - if the next entry answers and names such a directory, the locator
      returns that directory's [localscore] entry, whatever comes after it
      in [PATH];
    - if a call made for the next entry raises, that exception leaves the
      locator: the entry is not skipped, and nothing after it is looked at;
    - if no entry is left, the locator looks at the working directory only,
      and (its calls answering) returns the resolved entry there when it is
      a regular, execute-permitted file and the value [None] otherwise. *)
Theorem find_localscore_first_match_or_raise (w : W) (pre rest : list string) :
  Py.split ":"%char
    (match environ_get os w "PATH" with Some s => s | None => "" end) =
  (pre ++ rest)%list ->
  (forall x, In x pre ->
             entry_fault os flt w x = None /\
             holds_executable os w (entry_dir os w x) = false) ->
  (forall d post,
      rest = d :: post ->
      entry_fault os flt w d = None ->
      holds_executable os w (entry_dir os w d) = true ->
      Raising.find_localscore os flt w =
      Ret (Some (PurePath.joinpath (entry_dir os w d) (mkPath "" ["localscore"])))) /\
  (forall d post e,
      rest = d :: post ->
      entry_fault os flt w d = Some e ->
      Raising.find_localscore os flt w = Raise e) /\
  (rest = [] ->
   flt w Getcwd = None ->
   flt w (Stat (PurePath.joinpath (getcwd os w) (mkPath "" ["localscore"]))) = None ->
   flt w (Resolve (PurePath.joinpath (getcwd os w) (mkPath "" ["localscore"]))) = None ->
   Raising.find_localscore os flt w =
   Ret (if exists_ os w (PurePath.joinpath (getcwd os w) (mkPath "" ["localscore"]))
           && is_file os w (PurePath.joinpath (getcwd os w) (mkPath "" ["localscore"]))
           && access_X_OK os w (PurePath.joinpath (getcwd os w) (mkPath "" ["localscore"]))
        then Some (resolve os w (PurePath.joinpath (getcwd os w) (mkPath "" ["localscore"])))
        else None)).
Proof.
  intros Hsplit Hpre.
  assert (Hscan : Raising.scan_path_dirs os flt w
                    (Py.split ":"%char
                       (match environ_get os w "PATH" with Some s => s | None => "" end)) =
                  Raising.scan_path_dirs os flt w rest)
    by (rewrite Hsplit; now apply raising_scan_prefix).
  unfold Raising.find_localscore. rewrite Hscan. split; [| split].
  - intros d post -> Hquiet Hholds.
    rewrite raising_scan_cons, Hquiet, Hholds. reflexivity.
  - intros d post e -> Hfault.
    rewrite raising_scan_cons, Hfault. reflexivity.
  - intros -> Hcwd Hstat Hres. cbn [Raising.scan_path_dirs]. unfold Raising.guard.
    rewrite Hcwd.
    change (getcwd os w // LOCALSCORE_BIN)
      with (PurePath.joinpath (getcwd os w) (mkPath "" ["localscore"])).
    rewrite Hstat.
    destruct (exists_ os w _ && is_file os w _ && access_X_OK os w _);
      [rewrite Hres |]; reflexivity.
Qed.



End RaisingClaims.

(** C4, the claim as worded fails: with [~ghost/bin] in front of [PATH] and
    no home directory for [ghost], the locator raises, although
    [/opt/bin], the next entry, holds a regular, execute-permitted
    [localscore]; the first entry is not skipped and no not-found value is
    returned. *)
Lemma find_localscore_raises_on_unknown_home :
  Py.split ":"%char "~ghost/bin:/opt/bin" = ["~ghost/bin"; "/opt/bin"] /\
  environ_get Demo.os Faulty.w_ghost "PATH" = Some "~ghost/bin:/opt/bin" /\
  holds_executable Demo.os Faulty.w_ghost (mkPath "/" ["opt"; "bin"]) = true /\
  Raising.find_localscore Demo.os Faulty.ghost_home Faulty.w_ghost =
  Raise (Exception "Could not determine home directory.").
Proof. repeat split; reflexivity. Qed.

Lemma find_localscore_first_match_or_raise_witness :
  Raising.find_localscore Demo.os Faulty.none Demo.w0 =
  Ret (Some (mkPath "/" ["opt"; "bin"; "localscore"])) /\
  Raising.find_localscore Demo.os Faulty.ghost_home Faulty.w_ghost =
  Raise (Exception "Could not determine home directory.") /\
  Raising.find_localscore Demo.os Faulty.none Demo.w_bare = Ret None /\
  Raising.find_localscore Demo.os Faulty.none Demo.w_local =
  Ret (Some (mkPath "/" ["home"; "u"; "proj"; "localscore"])).
Proof.
  split; [| split; [| split]].
  - refine (proj1 (find_localscore_first_match_or_raise
                     Demo.os Faulty.none Demo.w0 ["/usr/bin"; "/nowhere"] ["/opt/bin"]
                     eq_refl _) "/opt/bin" [] eq_refl eq_refl eq_refl).
    intros x [<- | [<- | []]]; split; reflexivity.
  - refine (proj1 (proj2 (find_localscore_first_match_or_raise
                            Demo.os Faulty.ghost_home Faulty.w_ghost []
                            ["~ghost/bin"; "/opt/bin"] eq_refl _))
                  "~ghost/bin" ["/opt/bin"] _ eq_refl eq_refl).
    intros x [].
  - refine (proj2 (proj2 (find_localscore_first_match_or_raise
                            Demo.os Faulty.none Demo.w_bare ["/usr/bin"] [] eq_refl _))
                  eq_refl eq_refl eq_refl eq_refl).
    intros x [<- | []]; split; reflexivity.
  - refine (proj2 (proj2 (find_localscore_first_match_or_raise
                            Demo.os Faulty.none Demo.w_local ["/usr/bin"] [] eq_refl _))
                  eq_refl eq_refl eq_refl eq_refl).
    intros x [<- | []]; split; reflexivity.
Defined.





(** C5.  [PATH] is [/usr/bin:/opt/bin/]: the locator finds the executable
    through the second entry, so the directory that contains it,
    [/opt/bin], is a directory on the search path; but the script compares
    the text [/opt/bin] with the entries as written, finds no [/opt/bin/]
    equal to it, and runs the executable by its absolute path instead of by
    bare name. *)
Theorem run_localscore_absolute_name_for_PATH_directory :
  path_entries Demo.os Faulty.w_trailing_slash = ["/usr/bin"; "/opt/bin/"] /\
  entry_dir Demo.os Faulty.w_trailing_slash "/opt/bin/" = mkPath "/" ["opt"; "bin"] /\
  Raising.scan_path_dirs Demo.os Faulty.none Faulty.w_trailing_slash
                         ["/usr/bin"; "/opt/bin/"] =
  Ret (Some (mkPath "/" ["opt"; "bin"; "localscore"])) /\
  PurePath.parent (mkPath "/" ["opt"; "bin"; "localscore"]) = mkPath "/" ["opt"; "bin"] /\
  spawned (snd (Raising.run_localscore Demo.os Faulty.none Demo.cfg "llama.gguf"
                                       Faulty.w_trailing_slash)) =
  ["/opt/bin/localscore -m /home/u/proj/models/llama.gguf"] /\
  spawned (snd (run_localscore Demo.os Demo.cfg "llama.gguf" Faulty.w_trailing_slash)) =
  ["/opt/bin/localscore -m /home/u/proj/models/llama.gguf"].
Proof. repeat split; reflexivity. Qed.

(** C6.  [--download-model llama.gguf] with the hub unreachable: the fetcher
    returns [None], [main] prints the failure line and returns 1, and no
    process is started, as the claim says; but the entry point drops what
    [main] returns, so the run ends with status 0, not with failure code
    1. *)
Theorem script_status_after_failed_model_fetch :
  fst (fst (download_model_from_hf Demo.os Demo.cfg None None Demo.w_offline)) =
  Ret None /\
  fst (fst (main Demo.os Demo.cfg (mkArgs false (Some "llama.gguf") false true false)
                 Demo.w_offline)) = Ret 1 /\
  spawned (snd (main Demo.os Demo.cfg (mkArgs false (Some "llama.gguf") false true false)
                     Demo.w_offline)) = [] /\
  stdout_of (snd (main Demo.os Demo.cfg (mkArgs false (Some "llama.gguf") false true false)
                       Demo.w_offline)) =
  ["Downloading model from TheBloke/Llama-2-7B-Chat-GGUF..." ++ Py.nl;
   "Error downloading model: Connection error" ++ Py.nl;
   "Failed to download model." ++ Py.nl] /\
  fst (fst (script Demo.os Demo.cfg (mkArgs false (Some "llama.gguf") false true false)
                   Demo.w_offline)) = 0.
Proof. repeat split; vm_compute; reflexivity. Qed.
